(** * learning-timer: the MyTimer state machine, its tick registration and its
    event channel

    The development follows the latest revision of [src/app/mytimer.class.js]
    (the class whose [changeStep] returns a boolean and whose [toggle] defaults
    to ["stop"]).  The class keeps its private state in an instance of
    [Defaults] ([mytimer.defaults]), a module that is not among the sources;
    that object is modelled from the specification as [TimerState].  The
    older revisions kept in the same file differ where noted: there [stop]
    publishes unconditionally, [changeStep] only warns on bad arguments and
    returns nothing, and [toggle] has no [try] and defaults to ["pause"]. *)

From stdpp Require Import gmap strings list fin_maps.
From Stdlib Require Import ZArith Lia.

Local Open Scope Z_scope.

(** ** The private object: [TimerState] *)

Inductive RunState := idle | running | paused | stopped.

Inductive Direction := up | down.

Global Instance RunState_eq_dec : EqDecision RunState.
Proof. solve_decision. Defined.

Module TimerState.

(** Modelled from the spec: the fields of the private [Defaults] object
    ([mytimer.defaults] is missing), as listed in the data model. *)
Record t := mk {
  sessionLengthMs : Z;
  intervalMs : Z;
  direction : Direction;
  startEpochMs : option Z;
  accumulatedMs : Z;
  nowEpochMs : Z;
  runState : RunState
}.

Definition with_session (v : Z) (s : t) : t :=
  mk v (intervalMs s) (direction s) (startEpochMs s) (accumulatedMs s)
     (nowEpochMs s) (runState s).

Definition with_interval (v : Z) (s : t) : t :=
  mk (sessionLengthMs s) v (direction s) (startEpochMs s) (accumulatedMs s)
     (nowEpochMs s) (runState s).

Definition with_start (v : option Z) (s : t) : t :=
  mk (sessionLengthMs s) (intervalMs s) (direction s) v (accumulatedMs s)
     (nowEpochMs s) (runState s).

Definition with_accumulated (v : Z) (s : t) : t :=
  mk (sessionLengthMs s) (intervalMs s) (direction s) (startEpochMs s) v
     (nowEpochMs s) (runState s).

Definition with_now (v : Z) (s : t) : t :=
  mk (sessionLengthMs s) (intervalMs s) (direction s) (startEpochMs s)
     (accumulatedMs s) v (runState s).

Definition with_runState (v : RunState) (s : t) : t :=
  mk (sessionLengthMs s) (intervalMs s) (direction s) (startEpochMs s)
     (accumulatedMs s) (nowEpochMs s) v.

(** Modelled from the spec: the getters [is_counting] and [is_paused] of the
    missing [Defaults] object read the run state. *)
Definition is_counting (s : t) : bool := bool_decide (runState s = running).

Definition is_paused (s : t) : bool := bool_decide (runState s = paused).

(** Modelled from the spec: the live delta of the current run segment,
    [now - startEpochMs] while running and zero otherwise.  [now] is the wall
    clock at the call, as in "records startEpochMs = now". *)
Definition liveDelta (now : Z) (s : t) : Z :=
  if is_counting s
  then match startEpochMs s with Some t0 => now - t0 | None => 0 end
  else 0.

(** Banked time plus live delta, before clamping. *)
Definition rawElapsedMs (now : Z) (s : t) : Z :=
  accumulatedMs s + liveDelta now s.

Definition clamp (lo hi x : Z) : Z := Z.max lo (Z.min x hi).

(** Modelled from the spec: [elapsedMs], the getter [ellapsed] of the missing
    [Defaults] object: banked time plus live delta, clamped to
    [[0, sessionLengthMs]]. *)
Definition elapsedMs (now : Z) (s : t) : Z :=
  clamp 0 (sessionLengthMs s) (rawElapsedMs now s).

(** Modelled from the spec: [remainingMs]. *)
Definition remainingMs (now : Z) (s : t) : Z :=
  sessionLengthMs s - elapsedMs now s.

(** Modelled from the spec: [isSessionComplete], the getter [isEllapsed] of
    the missing [Defaults] object. *)
Definition isSessionComplete (now : Z) (s : t) : bool :=
  sessionLengthMs s <=? elapsedMs now s.

(** Modelled from the spec: [markRunning], the setter [is_counting = true] of
    the missing [Defaults] object. *)
Definition markRunning (now : Z) (s : t) : t :=
  with_runState running (with_start (Some now) s).

(** Modelled from the spec: [markPaused], that is [cumulateEllapsed()]
    followed by [is_paused = true] on the missing [Defaults] object.  It
    requires the running state; elsewhere nothing is banked. *)
Definition markPaused (now : Z) (s : t) : t :=
  if is_counting s
  then with_runState paused (with_accumulated (rawElapsedMs now s) s)
  else s.

(** Modelled from the spec: [markStopped], that is [cumulateEllapsed()]
    followed by [is_stopped = true] on the missing [Defaults] object: allowed
    from running or paused, banks the live delta when running, clamps the
    banked time to the session length. *)
Definition markStopped (now : Z) (s : t) : t :=
  if is_counting s || is_paused s
  then with_runState stopped
         (with_accumulated (Z.min (rawElapsedMs now s) (sessionLengthMs s)) s)
  else s.

(** Modelled from the spec: [resetTimes], the method [reset()] of the missing
    [Defaults] object; the run state is kept. *)
Definition resetTimes (now : Z) (s : t) : t :=
  with_start (Some now) (with_accumulated 0 s).

(** Modelled from the spec: [zeroTimes()] of the missing [Defaults] object.
    The spec gives the resume branch of [start] no effect of its own: the
    banked time is kept and [markRunning] records the new segment start. *)
Definition zeroTimes (now : Z) (s : t) : t := s.

(** Modelled from the spec: the set [steps] of the missing [Defaults] object
    holds the two recognized step names. *)
Definition steps : list string := ["session"; "interval"]%string.

Definition has_step (step : string) : bool := bool_decide (step ∈ steps).

(** Modelled from the spec: the getter [_this[step]] of a step. *)
Definition getStep (step : string) (s : t) : Z :=
  if String.eqb step "session" then sessionLengthMs s else intervalMs s.

(** Modelled from the spec: [setStep], the setters [_this[step] = ...] of the
    missing [Defaults] object.  [changeStep] hands the setter
    [{value: value}], a value that is already in milliseconds and carries no
    units, so only the validation is left: a step is non-negative and the
    interval strictly positive; a violation fails with [InvalidStepValue]. *)
Definition setStep (step : string) (ms : Z) (s : t) : option t :=
  if String.eqb step "session"
  then if 0 <=? ms then Some (with_session ms s) else None
  else if 0 <? ms then Some (with_interval ms s) else None.

End TimerState.

Import TimerState.

(** ** The world a timer lives in

    One timer, the host clock ([Date.now()]), the host's table of periodic
    registrations ([setInterval] / [clearInterval]), the listeners object of
    the event channel and the console.  [published] and [calls] are
    observation traces: the event names handed to [publish] and the listener
    methods invoked, oldest first. *)

(** A registration of [publishTime] made by one call of [start].  The callback
    closes over that call's local [_this], which the callback itself sets to
    [null] on the completing tick: [this_null] is that closure variable. *)
Record Registration := mkReg {
  rid : nat;
  due : Z;
  period : Z;
  this_null : bool
}.

(** An element [{listener: listener, method: method}] of a listeners array. *)
Record Entry := mkEntry {
  listener : string;
  method : string
}.

Global Instance Entry_eq_dec : EqDecision Entry.
Proof. solve_decision. Defined.

Record World := mkWorld {
  priv : TimerState.t;
  clock : Z;
  countDown : option nat;
  timers : list Registration;
  next_handle : nat;
  listeners : gmap string (list (option Entry));
  published : list string;
  calls : list Entry;
  console : list string;
  uncaught : list string
}.

Definition with_priv (p : TimerState.t) (w : World) : World :=
  mkWorld p (clock w) (countDown w) (timers w) (next_handle w) (listeners w)
          (published w) (calls w) (console w) (uncaught w).

Definition with_clock (c : Z) (w : World) : World :=
  mkWorld (priv w) c (countDown w) (timers w) (next_handle w) (listeners w)
          (published w) (calls w) (console w) (uncaught w).

Definition with_countDown (h : option nat) (w : World) : World :=
  mkWorld (priv w) (clock w) h (timers w) (next_handle w) (listeners w)
          (published w) (calls w) (console w) (uncaught w).

Definition with_timers (l : list Registration) (w : World) : World :=
  mkWorld (priv w) (clock w) (countDown w) l (next_handle w) (listeners w)
          (published w) (calls w) (console w) (uncaught w).

Definition with_next_handle (n : nat) (w : World) : World :=
  mkWorld (priv w) (clock w) (countDown w) (timers w) n (listeners w)
          (published w) (calls w) (console w) (uncaught w).

Definition with_listeners (l : gmap string (list (option Entry))) (w : World)
  : World :=
  mkWorld (priv w) (clock w) (countDown w) (timers w) (next_handle w) l
          (published w) (calls w) (console w) (uncaught w).

Definition with_published (l : list string) (w : World) : World :=
  mkWorld (priv w) (clock w) (countDown w) (timers w) (next_handle w)
          (listeners w) l (calls w) (console w) (uncaught w).

Definition with_calls (l : list Entry) (w : World) : World :=
  mkWorld (priv w) (clock w) (countDown w) (timers w) (next_handle w)
          (listeners w) (published w) l (console w) (uncaught w).

Definition with_console (l : list string) (w : World) : World :=
  mkWorld (priv w) (clock w) (countDown w) (timers w) (next_handle w)
          (listeners w) (published w) (calls w) l (uncaught w).

Definition with_uncaught (l : list string) (w : World) : World :=
  mkWorld (priv w) (clock w) (countDown w) (timers w) (next_handle w)
          (listeners w) (published w) (calls w) (console w) l.

(** ** Calls that return or throw *)

(** What a method hands back: [this], a boolean or [undefined]. *)
Inductive JsVal := JsThis | JsBool (b : bool) | JsUndefined.

Definition truthy (v : JsVal) : bool :=
  match v with
  | JsThis => true
  | JsBool b => b
  | JsUndefined => false
  end.

Inductive Outcome (A : Type) :=
| Returned (a : A) (w : World)
| Thrown (msg : string) (w : World).

Arguments Returned {A} a w.
Arguments Thrown {A} msg w.

Definition M (A : Type) : Type := World -> Outcome A.

Definition ret {A} (a : A) : M A := fun w => Returned a w.

Definition throw {A} (msg : string) : M A := fun w => Thrown msg w.

Definition bind {A B} (m : M A) (k : A -> M B) : M B :=
  fun w => match m w with
           | Returned a w' => k a w'
           | Thrown msg w' => Thrown msg w'
           end.

Definition modify (f : World -> World) : M unit := fun w => Returned tt (f w).

Notation "'let*' x ':=' m 'in' k" := (bind m (fun x => k))
  (at level 10, x name, m at level 200, k at level 200).

Definition world_of {A} (o : Outcome A) : World :=
  match o with
  | Returned _ w => w
  | Thrown _ w => w
  end.

(** The error the engine raises for a call on something that is no function
    or a property read on [undefined] or [null]; the text of its message is
    the engine's. *)
Definition TypeError : string := "TypeError".

(** ** The event channel ([this.event] in the constructor) *)

(** Modelled from the spec: the array [events] of the missing [Defaults]
    object, the six event names of the component. *)
Definition events : list string :=
  ["sessionStarted"; "sessionStopped"; "sessionPaused"; "currentTime";
   "sessionChanged"; "timerReset"]%string.

(** [listener.listener[listener.method]()]: the listener's method is host code;
    it is taken to return without calling back into the timer, and the
    invocation is recorded. *)
Definition invoke (e : Entry) (w : World) : World :=
  with_calls (calls w ++ [e]) w.

(** [Array.prototype.forEach] visits the indices in increasing order and skips
    the holes left by [delete]. *)
Fixpoint forEach (arr : list (option Entry)) (w : World) : World :=
  match arr with
  | [] => w
  | Some e :: rest => forEach rest (invoke e w)
  | None :: rest => forEach rest w
  end.

(** [publish: (eventName) => listeners[eventName].forEach(...)].  An event name
    that is no key of [listeners] makes [listeners[eventName]] undefined and
    the call a TypeError. *)
Definition publish (eventName : string) : M unit :=
  fun w =>
    match listeners w !! eventName with
    | Some arr =>
        Returned tt (forEach arr (with_published (published w ++ [eventName]) w))
    | None => Thrown TypeError w
    end.

(** [subscribe: (listener, eventName, method) => ...]: [push] appends and the
    handle remembers the index of the new element. *)
Definition subscribe (l eventName m : string) : M nat :=
  fun w =>
    match listeners w !! eventName with
    | Some arr =>
        Returned (length arr)
          (with_listeners (<[eventName := arr ++ [Some (mkEntry l m)]]> (listeners w)) w)
    | None => Thrown TypeError w
    end.

(** [remove: () => delete listeners[eventName][index]]: the element becomes a
    hole, the array keeps its length; [delete] answers [true]. *)
Definition remove (eventName : string) (index : nat) : M bool :=
  fun w =>
    match listeners w !! eventName with
    | Some arr =>
        Returned true
          (with_listeners (<[eventName := <[index := None]> arr]> (listeners w)) w)
    | None => Thrown TypeError w
    end.

(** ** The host scheduler *)

(** The largest delay the host's timers take, [2^31 - 1] milliseconds. *)
Definition TIMEOUT_MAX : Z := 2147483647.

(** The delay the host schedules with: Node's timers take a delay from one
    millisecond to [TIMEOUT_MAX] as it is and any other as one millisecond.
    (A browser converts a larger delay to a 32-bit integer instead; what is
    stated about the period below is stated for delays up to
    [TIMEOUT_MAX], where the hosts agree.) *)
Definition hostDelay (delay : Z) : Z :=
  if (1 <=? delay) && (delay <=? TIMEOUT_MAX) then delay else 1.

(** [setInterval(callback, delay)]: a new registration with a fresh handle,
    scheduled with the host's delay. *)
Definition setInterval (delay : Z) : M nat :=
  fun w =>
    let p := hostDelay delay in
    Returned (next_handle w)
      (with_next_handle (S (next_handle w))
         (with_timers (timers w ++ [mkReg (next_handle w) (clock w + p) p false]) w)).

(** [clearInterval(handle)]. *)
Definition clearInterval (h : nat) (w : World) : World :=
  with_timers (filter (fun r => rid r ≠ h) (timers w)) w.

(** [if (countDown) clearInterval(countDown)]: nothing is cancelled for an
    undefined or zero handle. *)
Definition clearCountDown (h : option nat) (w : World) : World :=
  match h with
  | Some (S n) => clearInterval (S n) w
  | _ => w
  end.

(** ** The class [MyTimer] *)

(** The argument of [changeStep]: [{step, value, units, sign, increment}];
    [units], [sign] and [increment] may be left out. *)
Record Options := mkOptions {
  opt_step : string;
  opt_value : Z;
  opt_units : option string;
  opt_sign : option Z;
  opt_increment : option Z
}.

(** What [_this.convert(options)] does: it hands back milliseconds or throws. *)
Inductive Converted := Millis (ms : Z) | ConvertError (msg : string).

Definition gets {A} (f : World -> A) : M A := fun w => Returned (f w) w.

Definition modify_priv (f : Z -> TimerState.t -> TimerState.t) : M unit :=
  modify (fun w => with_priv (f (clock w) (priv w)) w).

Definition try_catch {A} (body : M A) (handler : string -> M A) : M A :=
  fun w => match body w with
           | Returned a w' => Returned a w'
           | Thrown msg w' => handler msg w'
           end.

(** [console.warn(message)]. *)
Definition warn (msg : string) : M unit :=
  modify (fun w => with_console (console w ++ [msg]) w).

Definition InvalidStepValue : string := "InvalidStepValue".

Section MyTimer.

(** The duration conversion [_this.convert] of the missing [Defaults] object,
    the text [messages.stepNotChanged] of the missing [mytimer.messages], and
    whatever else [this[method]] can reach that the class body does not
    define (the time methods made by [createTimeMethods], inherited methods;
    an absent property throws a TypeError). *)
Variable convert : Options -> Converted.
Variable stepNotChanged : string.
Variable otherMethod : string -> M JsVal.

(** [reset() { _privateObjects.get(this).reset(); this.event.publish("timerReset"); }] *)
Definition reset : M JsVal :=
  let* _ := modify_priv resetTimes in
  let* _ := publish "timerReset" in
  ret JsUndefined.

(** [stop()] *)
Definition stop : M JsVal :=
  fun w =>
    if is_counting (priv w) || is_paused (priv w)
    then (let countDown := countDown w in
          let* _ := modify_priv markStopped in
          let* _ := modify (clearCountDown countDown) in
          let* _ := publish "sessionStopped" in
          ret JsThis) w
    else Returned (JsBool false) w.

(** [pause()] *)
Definition pause : M JsVal :=
  fun w =>
    if is_counting (priv w)
    then (let countDown := countDown w in
          let* _ := modify_priv markPaused in
          let* _ := modify (clearCountDown countDown) in
          let* _ := publish "sessionPaused" in
          ret JsThis) w
    else Returned (JsBool false) w.

(** The closure's [_this = null] of the registration with handle [h]. *)
Definition set_this_null (h : nat) (w : World) : World :=
  with_timers
    (map (fun r => if decide (rid r = h)
                   then mkReg (rid r) (due r) (period r) true
                   else r) (timers w)) w.

(** [publishTime], the callback registered by [start]; [h] is the handle of
    its registration and [this_null] the state of its closure variable.  With
    [_this] already [null], reading [_this.isEllapsed] is a TypeError. *)
Definition publishTime (h : nat) (this_null : bool) : M unit :=
  fun w =>
    if this_null then Thrown TypeError w
    else if negb (isSessionComplete (clock w) (priv w))
    then (let* _ := modify (fun w => with_priv (with_now (clock w) (priv w)) w) in
          publish "currentTime") w
    else (let* _ := modify (set_this_null h) in
          let* _ := stop in
          ret tt) w.

(** [start()] *)
Definition start : M JsVal :=
  fun w =>
    if negb (is_counting (priv w))
    then (let* _ := (if negb (is_paused (priv w))
                     then (let* _ := reset in ret tt)
                     else modify_priv zeroTimes) in
          let* _ := modify_priv markRunning in
          let* delay := gets (fun w => intervalMs (priv w)) in
          let* h := setInterval delay in
          let* _ := modify (with_countDown (Some h)) in
          let* _ := publish "sessionStarted" in
          ret JsThis) w
    else Returned (JsBool false) w.

(** [if (sign !== 1 && sign !== -1) sign = 1;] *)
Definition normSign (sign : option Z) : Z :=
  match sign with
  | Some s => if (s =? 1) || (s =? -1) then s else 1
  | None => 1
  end.

(** [if (increment !== 0 && increment !== 1) increment = 0;] *)
Definition normIncrement (increment : option Z) : Z :=
  match increment with
  | Some i => if (i =? 0) || (i =? 1) then i else 0
  | None => 0
  end.

(** [stepProcedure[step](value)] *)
Definition stepProcedure (step : string) (value : Z) : M unit :=
  fun w =>
    if String.eqb step "session"
    then if (negb (is_counting (priv w)) && negb (is_paused (priv w)))
            || (elapsedMs (clock w) (priv w) <? value)
         then match setStep step value (priv w) with
              | Some p =>
                  (let* _ := modify (with_priv p) in
                   let* _ := publish "sessionChanged" in
                   publish "currentTime") w
              | None => Thrown InvalidStepValue w
              end
         else Returned tt w
    else if String.eqb step "interval"
    then Returned tt w
    else Thrown TypeError w.

(** [changeStep(options)]; [None] is a call without an argument, where
    reading [options.step] is a TypeError. *)
Definition changeStep (options : option Options) : M JsVal :=
  fun w =>
    match options with
    | None => Thrown TypeError w
    | Some o =>
        let step := opt_step o in
        if has_step step
        then
          let sign := normSign (opt_sign o) in
          let increment := normIncrement (opt_increment o) in
          if (0 <? sign) || ((sign <? 0) && (0 <? getStep step (priv w)))
          then
            match convert o with
            | ConvertError msg => Thrown msg w
            | Millis ms =>
                let value := ms * sign + getStep step (priv w) * increment in
                let value := if value <? 0 then 0 else value in
                (let* _ := stepProcedure step value in
                 ret (JsBool true)) w
            end
          else Returned (JsBool false) w
        else Thrown stepNotChanged w
    end.

(** The body of [toggle] around the call [this[method]()]:
    [try { if (!this[method]()) this.start(); } catch (e) { console.warn(e.message); }] *)
Definition toggle_with (call : M JsVal) : M JsVal :=
  try_catch
    (let* r := call in
     if negb (truthy r)
     then (let* _ := start in ret JsUndefined)
     else ret JsUndefined)
    (fun msg => let* _ := warn msg in ret JsUndefined).

(** [this[method]()] with no argument.  [status], [session], [event] and
    [_this] are not functions and the class constructor cannot be called
    without [new]; [toggle] called this way takes its default ["stop"]. *)
Definition callMethod (name : string) : M JsVal :=
  if String.eqb name "start" then start
  else if String.eqb name "stop" then stop
  else if String.eqb name "pause" then pause
  else if String.eqb name "reset" then reset
  else if String.eqb name "changeStep" then changeStep None
  else if String.eqb name "toggle" then toggle_with stop
  else if bool_decide (name ∈ ["status"; "session"; "event"; "_this";
                                "constructor"]%string)
  then throw TypeError
  else otherMethod name.

(** [toggle(method = "stop")] *)
Definition toggle (method : option string) : M JsVal :=
  toggle_with (callMethod (default "stop"%string method)).

(** ** Time passing *)

Definition find_timer (h : nat) (w : World) : option Registration :=
  List.find (fun r => Nat.eqb (rid r) h) (timers w).

Definition reschedule (h : nat) (w : World) : World :=
  with_timers
    (map (fun r => if decide (rid r = h)
                   then mkReg (rid r) (due r + period r) (period r) (this_null r)
                   else r) (timers w)) w.

(** One firing of the registration [h], if it has not been cancelled in the
    meantime.  An error escaping the callback reaches the host, which reports
    it and goes on. *)
Definition fire (h : nat) (w : World) : World :=
  match find_timer h w with
  | None => w
  | Some r =>
      match publishTime h (this_null r) (reschedule h w) with
      | Returned _ w' => w'
      | Thrown msg w' => with_uncaught (uncaught w' ++ [msg]) w'
      end
  end.

Definition due_handles (w : World) : list nat :=
  map rid (filter (fun r => due r ≤ clock w) (timers w)).

(** The clock moves on by one millisecond and the registrations that are due
    fire, oldest first. *)
Definition tick1 (w : World) : World :=
  let w1 := with_clock (clock w + 1) w in
  foldl (fun acc h => fire h acc) w1 (due_handles w1).

(** [advance n]: [n] milliseconds pass. *)
Fixpoint advance (n : nat) (w : World) : World :=
  match n with
  | O => w
  | S n' => advance n' (tick1 w)
  end.

End MyTimer.

(** Modelled from the spec: a timer as the constructor leaves it, with valid
    step options: idle, nothing banked, no registration, an empty array of
    listeners for every event. *)
Definition new_timer (session interval : Z) (d : Direction) (t0 : Z) : World :=
  mkWorld (TimerState.mk session interval d None 0 t0 idle) t0 None [] 1
          (list_to_map (map (fun e => (e, [])) events)) [] [] [] [].

(** * Vocabulary of the properties *)

(** ** Deliveries *)

(** The entries of an array that are not holes, in index order. *)
Definition present (arr : list (option Entry)) : list Entry := omap id arr.

(** The world after a successful [publish]. *)
Definition deliver (eventName : string) (w : World) : World :=
  with_calls (calls w ++ present (default [] (listeners w !! eventName)))
             (with_published (published w ++ [eventName]) w).

(** ** Well-formed worlds *)

Definition has_events (w : World) : Prop :=
  Forall (fun e => is_Some (listeners w !! e)) events.

(** The registration table agrees with the run state: a running timer has
    exactly the registration whose handle it keeps in [countDown], any other
    timer has none. *)
Definition registered (w : World) : Prop :=
  match timers w with
  | [] => runState (priv w) <> running
  | [r] => runState (priv w) = running /\ countDown w = Some (rid r)
           /\ rid r <> 0%nat /\ this_null r = false
  | _ => False
  end.

Definition fresh_handles (w : World) : Prop :=
  (0 < next_handle w)%nat /\
  Forall (fun r => (rid r < next_handle w)%nat) (timers w).

Definition wf (w : World) : Prop :=
  has_events w /\ registered w /\ fresh_handles w.

Global Instance registered_dec (w : World) : Decision (registered w).
Proof. unfold registered. destruct (timers w) as [|r [|r' l]]; apply _. Defined.

Global Instance wf_dec (w : World) : Decision (wf w).
Proof. unfold wf, has_events, fresh_handles. apply _. Defined.

(** ** The worlds a method or a tick leaves behind *)

(** The world in which [start] registers its callback: after [reset()] when
    the timer was not paused, as it is when it was. *)
Definition before_run (w : World) : World :=
  if is_paused (priv w) then w
  else deliver "timerReset" (with_priv (resetTimes (clock w) (priv w)) w).

(** The world a [start] that does start leaves behind. *)
Definition started (w : World) : World :=
  let w0 := before_run w in
  let p := hostDelay (intervalMs (priv w0)) in
  deliver "sessionStarted"
    (mkWorld (markRunning (clock w0) (priv w0)) (clock w0)
             (Some (next_handle w0))
             (timers w0 ++ [mkReg (next_handle w0) (clock w0 + p) p false])
             (S (next_handle w0)) (listeners w0) (published w0) (calls w0)
             (console w0) (uncaught w0)).

(** The world after a tick that finds the session still open. *)
Definition ticked (r : Registration) (w : World) : World :=
  deliver "currentTime"
    (with_priv (with_now (clock w) (priv w))
       (with_timers [mkReg (rid r) (due r + period r) (period r) false] w)).

(** The world after a tick that finds the session complete. *)
Definition completed (w : World) : World :=
  deliver "sessionStopped"
    (with_timers [] (with_priv (markStopped (clock w) (priv w)) w)).

(** ** The arithmetic of [changeStep] *)

(** The new value [changeStep] computes from the converted milliseconds. *)
Definition newStepValue (ms : Z) (o : Options) (current : Z) : Z :=
  let value := ms * normSign (opt_sign o) + current * normIncrement (opt_increment o) in
  if value <? 0 then 0 else value.

(** The sign test that lets [changeStep] go on. *)
Definition signGuard (o : Options) (current : Z) : bool :=
  (0 <? normSign (opt_sign o))
  || ((normSign (opt_sign o) <? 0) && (0 <? current)).

(** ** The outcome of [toggle] *)

(** Following the spec's words: what [toggle] makes of the outcome of the
    call [this[method]()]: after a truthy result nothing more, after a falsy
    one [start()], and an error of either call is reported with
    [console.warn] and goes no further; [toggle] returns [undefined]. *)
Definition toggled (o : Outcome JsVal) : Outcome JsVal :=
  match o with
  | Returned v w1 =>
      if truthy v then Returned JsUndefined w1
      else match start w1 with
           | Returned _ w2 => Returned JsUndefined w2
           | Thrown msg w2 =>
               Returned JsUndefined (with_console (console w2 ++ [msg]) w2)
           end
  | Thrown msg w1 =>
      Returned JsUndefined (with_console (console w1 ++ [msg]) w1)
  end.

(** ** The pause and resume scenario *)

(** The account of a private object: everything the elapsed time is computed
    from, that is all of it but the sampled time. *)
Definition same_account (p p' : TimerState.t) : Prop :=
  sessionLengthMs p' = sessionLengthMs p /\ startEpochMs p' = startEpochMs p
  /\ accumulatedMs p' = accumulatedMs p /\ runState p' = runState p.

(** The run of the pause and resume scenario:
    [start(); advance(a); pause(); advance(b); start(); advance(c)]. *)
Definition pause_resume (a b c : nat) (w : World) : World :=
  let w1 := advance a (world_of (start w)) in
  let w2 := advance b (world_of (pause w1)) in
  advance c (world_of (start w2)).

(** ** Histories of the event channel *)

(** What a client does to the channel: [subscribe], or [remove()] on the
    handle that a subscription to [eventName] returned with index [index]. *)
Inductive ChannelOp :=
| Subscribe (l eventName m : string)
| Remove (eventName : string) (index : nat).

Definition channel_step (w : World) (op : ChannelOp) : World :=
  match op with
  | Subscribe l e m => world_of (subscribe l e m w)
  | Remove e i => world_of (remove e i w)
  end.

Definition channel_run (ops : list ChannelOp) (w : World) : World :=
  foldl channel_step w ops.

(** Whether the registration number [k] of the event is removed by one of the
    operations [rest] that come after it. *)
Definition removed_later (e : string) (k : nat) (rest : list ChannelOp) : bool :=
  existsb (fun op => match op with
                     | Remove e' i => bool_decide (e' = e /\ i = k)
                     | Subscribe _ _ _ => false
                     end) rest.

(** Following the spec's words: the currently registered listeners of an
    event, in registration order, without the removed ones.  [k] counts the
    registrations made for the event before [ops]. *)
Fixpoint registered_listeners (e : string) (k : nat) (ops : list ChannelOp)
  : list Entry :=
  match ops with
  | [] => []
  | Subscribe l e' m :: rest =>
      if bool_decide (e' = e)
      then (if removed_later e k rest then [] else [mkEntry l m])
             ++ registered_listeners e (S k) rest
      else registered_listeners e k rest
  | Remove _ _ :: rest => registered_listeners e k rest
  end.

(** The holes that the removals among [ops] leave in an array that is already
    there. *)
Fixpoint punch (e : string) (ops : list ChannelOp) (arr : list (option Entry))
  : list (option Entry) :=
  match ops with
  | [] => arr
  | Remove e' i :: rest =>
      punch e rest (if bool_decide (e' = e) then <[i := None]> arr else arr)
  | Subscribe _ _ _ :: rest => punch e rest arr
  end.

(** The elements that the subscriptions among [ops] append, a hole where the
    registration is removed later on. *)
Fixpoint appended (e : string) (k : nat) (ops : list ChannelOp)
  : list (option Entry) :=
  match ops with
  | [] => []
  | Subscribe l e' m :: rest =>
      if bool_decide (e' = e)
      then (if removed_later e k rest then None else Some (mkEntry l m))
             :: appended e (S k) rest
      else appended e k rest
  | Remove _ _ :: rest => appended e k rest
  end.

(** ** Concrete timers and options *)

(** A conversion for options that are already in milliseconds, and a class
    without further methods. *)
Definition convert_ms (o : Options) : Converted := Millis (opt_value o).

Definition no_other_method (name : string) : M JsVal := throw TypeError.

(** A timer of five milliseconds sampled every millisecond, fresh, and after
    [start()] and three milliseconds. *)
Definition fresh_timer : World := new_timer 5 1 down 100.

Definition running_timer : World := advance 3 (world_of (start fresh_timer)).

(** A timer of five milliseconds sampled every ten, seven milliseconds after
    [start()]: no tick has come yet. *)
Definition overdue_timer : World :=
  advance 7 (world_of (start (new_timer 5 10 down 100))).

(** The same timer at its first tick, and a timer of fifty milliseconds at
    its first tick. *)
Definition closing_timer : World :=
  with_clock 110 (advance 9 (world_of (start (new_timer 5 10 down 100)))).

Definition sampling_timer : World :=
  with_clock 110 (advance 9 (world_of (start (new_timer 50 10 down 100)))).

Definition shrink_session : Options :=
  mkOptions "session" 2 (Some "milliseconds"%string) (Some 1) (Some 0).

Definition grow_session : Options :=
  mkOptions "session" 20 (Some "milliseconds"%string) (Some 1) (Some 0).

Definition change_volume : Options :=
  mkOptions "volume" 5 (Some "minutes"%string) None None.

Definition empty_session_timer : World := new_timer 0 1 down 100.

Definition decrement_session : Options :=
  mkOptions "session" 5 (Some "milliseconds"%string) (Some (-1)) (Some 0).

Definition two_listeners : list ChannelOp :=
  [Subscribe "listenerA" "currentTime" "onTick";
   Subscribe "listenerB" "currentTime" "onTick";
   Remove "currentTime" 0].

(** ** Histories of a timer *)

(** What a client of the class can do to a timer, and time passing. *)
Inductive TimerOp :=
| OpStart
| OpStop
| OpPause
| OpReset
| OpChangeStep (options : option Options)
| OpToggle (method : option string)
| OpSubscribe (l eventName m : string)
| OpRemove (eventName : string) (index : nat)
| OpPublish (eventName : string)
| OpAdvance (n : nat).

(** One step of a timer's history. *)
Definition apply_op (convert : Options -> Converted) (stepNotChanged : string)
    (otherMethod : string -> M JsVal) (w : World) (op : TimerOp) : World :=
  match op with
  | OpStart => world_of (start w)
  | OpStop => world_of (stop w)
  | OpPause => world_of (pause w)
  | OpReset => world_of (reset w)
  | OpChangeStep options => world_of (changeStep convert stepNotChanged options w)
  | OpToggle method =>
      world_of (toggle convert stepNotChanged otherMethod method w)
  | OpSubscribe l e m => world_of (subscribe l e m w)
  | OpRemove e i => world_of (remove e i w)
  | OpPublish e => world_of (publish e w)
  | OpAdvance n => advance n w
  end.

(** A world in which no array holds a listener. *)
Definition mute (w : World) : Prop :=
  forall e arr, listeners w !! e = Some arr -> present arr = [].

(** ** Further vocabulary *)

(** The number of subscriptions to an event in a history. *)
Fixpoint subscriptions (e : string) (ops : list ChannelOp) : nat :=
  match ops with
  | [] => 0
  | Subscribe _ e' _ :: rest =>
      (if bool_decide (e' = e) then 1 else 0) + subscriptions e rest
  | Remove _ _ :: rest => subscriptions e rest
  end.

(** The timer of [running_timer] after [pause()]. *)
Definition paused_timer : World := world_of (pause running_timer).

Definition change_interval : Options :=
  mkOptions "interval" 250 (Some "milliseconds"%string) (Some 1) (Some 0).

(** A conversion that rejects every value. *)
Definition convert_rejects (o : Options) : Converted :=
  ConvertError "InvalidValue".

(** What [changeStep] can touch: everything but the session length and the
    two traces is as before. *)
Definition same_but_session (w w' : World) : Prop :=
  intervalMs (priv w') = intervalMs (priv w)
  /\ direction (priv w') = direction (priv w)
  /\ startEpochMs (priv w') = startEpochMs (priv w)
  /\ accumulatedMs (priv w') = accumulatedMs (priv w)
  /\ nowEpochMs (priv w') = nowEpochMs (priv w)
  /\ runState (priv w') = runState (priv w)
  /\ clock w' = clock w
  /\ countDown w' = countDown w
  /\ timers w' = timers w
  /\ next_handle w' = next_handle w
  /\ listeners w' = listeners w
  /\ console w' = console w.

(** The period of the registration that [start] makes, in whole
    milliseconds. *)
Definition periodOf (w : World) : nat :=
  Z.to_nat (Z.max 1 (intervalMs (priv w))).

(** The banked time a run segment begins with: what a paused timer has
    banked, zero after the [reset()] of any other timer. *)
Definition bankedAtStart (w : World) : Z :=
  if is_paused (priv w) then accumulatedMs (priv w) else 0.

(** A running timer [k] ticks into a segment begun at [t0] with [acc] banked:
    the next tick is one period away and [currentTime] has been published
    once per tick. *)
Definition ticking (t0 acc : Z) (P : nat) (pub0 : list string) (k : nat)
    (w : World) : Prop :=
  wf w /\ runState (priv w) = running
  /\ startEpochMs (priv w) = Some t0 /\ accumulatedMs (priv w) = acc
  /\ clock w = t0 + Z.of_nat k * Z.of_nat P
  /\ (exists h, timers w = [mkReg h (clock w + Z.of_nat P) (Z.of_nat P) false])
  /\ published w = pub0 ++ replicate k "currentTime"%string.

(** A timer of five seconds sampled every second, as in the scenario of the
    specification scaled to milliseconds of one: session 5, interval 1 is
    [fresh_timer]; this one has session 50 and interval 10. *)
Definition slow_timer : World := new_timer 50 10 down 100.

Definition busy_history : list TimerOp :=
  [OpStart; OpAdvance 2; OpPause; OpToggle (Some "pause"%string); OpStart;
   OpChangeStep (Some grow_session); OpAdvance 1; OpToggle None; OpReset].

(** ** The previous revision of [changeStep]

    The revision before the last (the second class in the file) has the same
    collaborators but another [changeStep]: no sign test before the
    conversion, no clamping of the value, a guard that looks at [is_counting]
    only, and no return value. *)

Module Revision2.

Section ChangeStep.

Variable convert : Options -> Converted.
Variable stepNotChanged : string.

(** [setSession], the helper inside the [session] procedure. *)
Definition setSession (step : string) (value : Z) : M unit :=
  fun w =>
    match setStep step value (priv w) with
    | Some p =>
        (let* _ := modify (with_priv p) in
         let* _ := publish "sessionChanged" in
         publish "currentTime") w
    | None => Thrown InvalidStepValue w
    end.

(** [stepProcedure[step](value)] of that revision; [this.session] is the
    session length. *)
Definition stepProcedure (step : string) (value : Z) : M unit :=
  fun w =>
    if String.eqb step "session"
    then if negb (is_counting (priv w))
            || (is_counting (priv w) && (elapsedMs (clock w) (priv w) <? value))
         then if 0 <=? value
              then setSession step value w
              else if (value <? 0) && (0 <? sessionLengthMs (priv w))
                   then setSession step 0 w
                   else Returned tt w
         else Returned tt w
    else if String.eqb step "interval"
    then Returned tt w
    else Thrown TypeError w.

(** [changeStep(options)] of that revision. *)
Definition changeStep (options : option Options) : M JsVal :=
  fun w =>
    match options with
    | None => Thrown TypeError w
    | Some o =>
        let step := opt_step o in
        if has_step step
        then
          let sign := normSign (opt_sign o) in
          let increment := normIncrement (opt_increment o) in
          match convert o with
          | ConvertError msg => Thrown msg w
          | Millis ms =>
              let value := ms * sign + getStep step (priv w) * increment in
              (let* _ := stepProcedure step value in
               ret JsUndefined) w
          end
        else Thrown stepNotChanged w
    end.

End ChangeStep.

End Revision2.

Definition halve_session : Options :=
  mkOptions "session" 1 (Some "milliseconds"%string) (Some 1) (Some 0).

(** Timers with listeners.  [subscribed_timer]: the fresh timer after two
    subscriptions to [currentTime].  [listening_timer]: the timer of fifty
    milliseconds at its first tick, after [two_listeners] (two subscriptions
    to [currentTime], the first one removed).  [closing_listening_timer]: the
    timer of five milliseconds at its first tick, after the same and a
    subscription to [sessionStopped]. *)
Definition subscribed_timer : World :=
  channel_run [Subscribe "listenerA" "currentTime" "onTick";
               Subscribe "listenerB" "currentTime" "onTick"] fresh_timer.

Definition listening_timer : World := channel_run two_listeners sampling_timer.

Definition closing_listening_timer : World :=
  channel_run (two_listeners ++ [Subscribe "listenerC" "sessionStopped" "onStop"])
              closing_timer.

(** * Properties *)

(** ** The event channel *)

Lemma with_calls_same (w : World) : with_calls (calls w) w = w.
Proof. by destruct w. Qed.

Lemma forEach_calls (arr : list (option Entry)) (w : World) :
  forEach arr w = with_calls (calls w ++ present arr) w.
Proof.
  revert w. induction arr as [|[e|] arr IH]; intros w; simpl.
  - by rewrite app_nil_r, with_calls_same.
  - rewrite IH. unfold invoke, with_calls. simpl. by rewrite <- app_assoc.
  - apply IH.
Qed.

Lemma publish_ok (e : string) (w : World) :
  is_Some (listeners w !! e) -> publish e w = Returned tt (deliver e w).
Proof.
  intros [arr Harr]. unfold publish, deliver. rewrite Harr. simpl.
  by rewrite forEach_calls.
Qed.

Lemma publish_total (e : string) (w : World) :
  publish e w = Returned tt (deliver e w) \/ publish e w = Thrown TypeError w.
Proof.
  unfold publish, deliver. destruct (listeners w !! e) as [arr|]; [left|by right].
  simpl. by rewrite forEach_calls.
Qed.

(** ** Well-formed worlds *)

Lemma has_events_elem (w : World) (e : string) :
  has_events w -> e ∈ events -> is_Some (listeners w !! e).
Proof. intros H He. unfold has_events in H. rewrite Forall_forall in H. auto. Qed.

Ltac event_key H :=
  apply (has_events_elem _ _ H); apply (bool_decide_unpack _); by vm_compute.

Lemma wf_running (w : World) :
  wf w -> runState (priv w) = running ->
  exists r, timers w = [r] /\ countDown w = Some (rid r)
            /\ rid r <> 0%nat /\ this_null r = false.
Proof.
  intros (_ & Hreg & _) Hrun. unfold registered in Hreg.
  destruct (timers w) as [|r [|r' l]]; [congruence| |done].
  exists r. tauto.
Qed.

Lemma wf_not_running (w : World) :
  wf w -> runState (priv w) <> running -> timers w = [].
Proof.
  intros (_ & Hreg & _) Hrun. unfold registered in Hreg.
  destruct (timers w) as [|r [|r' l]]; [done| |done].
  destruct Hreg as [? _]. congruence.
Qed.

Lemma wf_new_timer (session interval : Z) (d : Direction) (t0 : Z) :
  wf (new_timer session interval d t0).
Proof.
  split; [|split].
  - unfold has_events, events. repeat constructor; by eexists.
  - simpl. discriminate.
  - split; simpl; [lia|constructor].
Qed.

(** ** What each method does on a world with all event arrays *)

Ltac run_monad :=
  unfold bind, modify_priv, modify, ret, gets, throw, warn, try_catch; simpl.

Lemma clearCountDown_fields (h : option nat) (w : World) :
  priv (clearCountDown h w) = priv w /\ clock (clearCountDown h w) = clock w
  /\ countDown (clearCountDown h w) = countDown w
  /\ next_handle (clearCountDown h w) = next_handle w
  /\ listeners (clearCountDown h w) = listeners w
  /\ published (clearCountDown h w) = published w
  /\ calls (clearCountDown h w) = calls w
  /\ console (clearCountDown h w) = console w
  /\ uncaught (clearCountDown h w) = uncaught w.
Proof. destruct h as [[|n]|]; simpl; tauto. Qed.

Lemma clearCountDown_own (r : Registration) (w : World) :
  timers w = [r] -> rid r <> 0%nat ->
  clearCountDown (Some (rid r)) w = with_timers [] w.
Proof.
  intros Ht Hr. destruct (rid r) as [|n] eqn:E; [done|].
  unfold clearCountDown, clearInterval. rewrite Ht. f_equal.
  rewrite filter_cons, decide_False; [done|]. intros H. by apply H.
Qed.

Lemma clearCountDown_none (h : option nat) (w : World) :
  timers w = [] -> clearCountDown h w = w.
Proof.
  intros Ht. destruct h as [[|n]|]; simpl; try done.
  destruct w. simpl in Ht. subst. reflexivity.
Qed.

Lemma reset_eq (w : World) :
  has_events w ->
  reset w = Returned JsUndefined
              (deliver "timerReset" (with_priv (resetTimes (clock w) (priv w)) w)).
Proof.
  intros He. unfold reset. run_monad.
  rewrite publish_ok; [done|]. simpl. event_key He.
Qed.

Lemma stop_noop (w : World) :
  is_counting (priv w) || is_paused (priv w) = false ->
  stop w = Returned (JsBool false) w.
Proof. intros H. unfold stop. by rewrite H. Qed.

Lemma stop_eq (w : World) :
  has_events w ->
  is_counting (priv w) || is_paused (priv w) = true ->
  stop w = Returned JsThis
             (deliver "sessionStopped"
                (clearCountDown (countDown w)
                   (with_priv (markStopped (clock w) (priv w)) w))).
Proof.
  intros He H. unfold stop. rewrite H. run_monad.
  rewrite publish_ok; [done|].
  destruct (clearCountDown_fields (countDown w)
              (with_priv (markStopped (clock w) (priv w)) w))
    as (_ & _ & _ & _ & -> & _).
  simpl. event_key He.
Qed.

Lemma pause_noop (w : World) :
  is_counting (priv w) = false -> pause w = Returned (JsBool false) w.
Proof. intros H. unfold pause. by rewrite H. Qed.

Lemma pause_eq (w : World) :
  has_events w ->
  is_counting (priv w) = true ->
  pause w = Returned JsThis
              (deliver "sessionPaused"
                 (clearCountDown (countDown w)
                    (with_priv (markPaused (clock w) (priv w)) w))).
Proof.
  intros He H. unfold pause. rewrite H. run_monad.
  rewrite publish_ok; [done|].
  destruct (clearCountDown_fields (countDown w)
              (with_priv (markPaused (clock w) (priv w)) w))
    as (_ & _ & _ & _ & -> & _).
  simpl. event_key He.
Qed.

Lemma start_noop (w : World) :
  is_counting (priv w) = true -> start w = Returned (JsBool false) w.
Proof. intros H. unfold start. by rewrite H. Qed.

Lemma start_eq (w : World) :
  has_events w ->
  is_counting (priv w) = false ->
  start w = Returned JsThis (started w).
Proof.
  intros He H. unfold start, started, before_run. rewrite H. simpl.
  destruct (is_paused (priv w)) eqn:Hp; simpl.
  - run_monad. rewrite publish_ok; [done|]. simpl. event_key He.
  - unfold bind at 1. unfold bind at 1. rewrite (reset_eq _ He).
    run_monad. rewrite publish_ok; [done|]. unfold deliver. simpl.
    event_key He.
Qed.

(** ** Ticks *)

Lemma is_counting_true (p : TimerState.t) :
  is_counting p = true <-> runState p = running.
Proof. unfold is_counting. by rewrite bool_decide_eq_true. Qed.

Lemma is_counting_false (p : TimerState.t) :
  is_counting p = false <-> runState p <> running.
Proof. unfold is_counting. by rewrite bool_decide_eq_false. Qed.

Lemma is_paused_true (p : TimerState.t) :
  is_paused p = true <-> runState p = paused.
Proof. unfold is_paused. by rewrite bool_decide_eq_true. Qed.

Lemma reschedule_own (w : World) (r : Registration) :
  timers w = [r] ->
  reschedule (rid r) w =
    with_timers [mkReg (rid r) (due r + period r) (period r) (this_null r)] w.
Proof.
  intros Ht. unfold reschedule. rewrite Ht. simpl.
  by rewrite decide_True by done.
Qed.

Lemma set_this_null_own (w : World) (r : Registration) :
  timers w = [r] ->
  set_this_null (rid r) w =
    with_timers [mkReg (rid r) (due r) (period r) true] w.
Proof.
  intros Ht. unfold set_this_null. rewrite Ht. simpl.
  by rewrite decide_True by done.
Qed.

Lemma fire_eq (w : World) (r : Registration) :
  has_events w -> timers w = [r] -> runState (priv w) = running ->
  countDown w = Some (rid r) -> rid r <> 0%nat -> this_null r = false ->
  fire (rid r) w =
    if isSessionComplete (clock w) (priv w) then completed w else ticked r w.
Proof.
  intros He Ht Hrun Hcd Hr Hnull.
  unfold fire, find_timer. rewrite Ht. simpl find. rewrite Nat.eqb_refl.
  rewrite (reschedule_own _ _ Ht), Hnull.
  set (r1 := mkReg (rid r) (due r + period r) (period r) false).
  unfold publishTime. cbn [clock priv with_timers].
  destruct (isSessionComplete (clock w) (priv w)) eqn:Hc; cbn [negb].
  - unfold bind at 1, modify at 1.
    rewrite (set_this_null_own _ r1) by done.
    unfold bind at 1. rewrite stop_eq.
    + unfold ret, completed. f_equal. f_equal. cbn [countDown with_timers].
      rewrite Hcd. change (rid r) with (rid (mkReg (rid r1) (due r1) (period r1) true)).
      rewrite (clearCountDown_own (mkReg (rid r1) (due r1) (period r1) true))
        by done.
      by destruct w.
    + done.
    + cbn [priv with_timers]. apply orb_true_iff. left.
      by apply is_counting_true.
  - run_monad. rewrite publish_ok.
    + done.
    + simpl. event_key He.
Qed.

Lemma tick1_eq (w : World) (r : Registration) :
  timers w = [r] ->
  tick1 w = if decide (due r ≤ clock w + 1)
            then fire (rid r) (with_clock (clock w + 1) w)
            else with_clock (clock w + 1) w.
Proof.
  intros Ht. unfold tick1, due_handles. simpl. rewrite Ht.
  rewrite filter_cons. destruct (decide (due r ≤ clock w + 1)); by simpl.
Qed.

Lemma tick1_idle (w : World) :
  timers w = [] -> tick1 w = with_clock (clock w + 1) w.
Proof. intros Ht. unfold tick1, due_handles. simpl. by rewrite Ht. Qed.

Lemma advance_idle (n : nat) (w : World) :
  timers w = [] -> advance n w = with_clock (clock w + Z.of_nat n) w.
Proof.
  revert w. induction n as [|n IH]; intros w Ht.
  - simpl advance. rewrite Z.add_0_r. by destruct w.
  - simpl advance. rewrite (tick1_idle _ Ht), IH by done. simpl.
    unfold with_clock. simpl. f_equal. lia.
Qed.

Lemma advance_snoc (n : nat) (w : World) :
  advance (S n) w = tick1 (advance n w).
Proof.
  revert w. induction n as [|n IH]; intros w; [done|].
  change (advance (S (S n)) w) with (advance (S n) (tick1 w)).
  by rewrite IH.
Qed.

(** ** Well-formedness is kept *)

Lemma wf_ext (w w' : World) :
  listeners w' = listeners w -> timers w' = timers w ->
  runState (priv w') = runState (priv w) -> countDown w' = countDown w ->
  next_handle w' = next_handle w -> wf w -> wf w'.
Proof.
  intros Hl Ht Hr Hc Hn (He & Hreg & Hf).
  unfold wf, has_events, registered, fresh_handles in *.
  by rewrite Hl, Ht, Hr, Hc, Hn.
Qed.

Lemma wf_deliver (e : string) (w : World) : wf w -> wf (deliver e w).
Proof. by apply wf_ext. Qed.

Lemma wf_reset (w : World) : wf w -> wf (world_of (reset w)).
Proof.
  intros H. rewrite reset_eq by apply H. simpl.
  apply wf_deliver. revert H. by apply wf_ext.
Qed.

Lemma wf_halted (w : World) (p : TimerState.t) :
  wf w -> runState p <> running ->
  wf (clearCountDown (countDown w) (with_priv p w)).
Proof.
  intros Hwf Hp.
  destruct (clearCountDown_fields (countDown w) (with_priv p w))
    as (E1 & _ & E2 & E3 & E4 & _).
  assert (timers (clearCountDown (countDown w) (with_priv p w)) = []) as Ht.
  { destruct (decide (runState (priv w) = running)) as [Hrun|Hrun].
    - destruct (wf_running _ Hwf Hrun) as (r & Ht & Hcd & Hr & _).
      rewrite Hcd, (clearCountDown_own r); by simpl.
    - rewrite clearCountDown_none; simpl; by apply wf_not_running. }
  destruct Hwf as (He & Hreg & Hf & Hfr).
  unfold wf, has_events, registered, fresh_handles.
  rewrite Ht, E1, E3, E4. simpl. repeat split; done.
Qed.

Lemma wf_stop (w : World) : wf w -> wf (world_of (stop w)).
Proof.
  intros H.
  destruct (is_counting (priv w) || is_paused (priv w)) eqn:E.
  - rewrite stop_eq by (done || apply H). simpl. apply wf_deliver.
    apply wf_halted; [done|]. unfold markStopped. by rewrite E.
  - by rewrite stop_noop.
Qed.

Lemma wf_pause (w : World) : wf w -> wf (world_of (pause w)).
Proof.
  intros H.
  destruct (is_counting (priv w)) eqn:E.
  - rewrite pause_eq by (done || apply H). simpl. apply wf_deliver.
    apply wf_halted; [done|]. unfold markPaused. by rewrite E.
  - by rewrite pause_noop.
Qed.

Lemma wf_before_run (w : World) : wf w -> wf (before_run w).
Proof.
  intros H. unfold before_run. destruct (is_paused (priv w)); [done|].
  apply wf_deliver. revert H. by apply wf_ext.
Qed.

Lemma before_run_runState (w : World) :
  runState (priv (before_run w)) = runState (priv w).
Proof. unfold before_run. by destruct (is_paused (priv w)). Qed.

Lemma wf_started (w : World) :
  wf w -> runState (priv w) <> running -> wf (started w).
Proof.
  intros H Hrun. unfold started. apply wf_deliver.
  pose proof (wf_before_run _ H) as H0.
  assert (timers (before_run w) = []) as Ht.
  { apply wf_not_running; [done|]. by rewrite before_run_runState. }
  destruct H0 as (He & _ & Hpos & _).
  unfold wf, has_events, registered, fresh_handles. simpl.
  rewrite Ht. simpl. repeat split; try done; try lia.
  repeat constructor; simpl; lia.
Qed.

Lemma wf_start (w : World) : wf w -> wf (world_of (start w)).
Proof.
  intros H. destruct (is_counting (priv w)) eqn:E.
  - by rewrite start_noop.
  - rewrite start_eq by (done || apply H). simpl.
    apply wf_started; [done|]. by apply is_counting_false.
Qed.

Lemma wf_with_clock (c : Z) (w : World) : wf w -> wf (with_clock c w).
Proof. by apply wf_ext. Qed.

Lemma wf_tick1 (w : World) : wf w -> wf (tick1 w).
Proof.
  intros H.
  destruct (decide (runState (priv w) = running)) as [Hrun|Hrun].
  - destruct (wf_running _ H Hrun) as (r & Ht & Hcd & Hr & Hnull).
    rewrite (tick1_eq _ r Ht). case_decide; [|by apply wf_with_clock].
    rewrite fire_eq; try done; [|apply H].
    simpl. destruct (isSessionComplete _ _).
    + unfold completed. apply wf_deliver. simpl.
      destruct H as (He & Hreg & Hpos & Hfr).
      unfold wf, has_events, registered, fresh_handles. simpl.
      repeat split; try done.
      unfold markStopped. simpl.
      apply is_counting_true in Hrun. rewrite Hrun. by simpl.
    + unfold ticked. apply wf_deliver. simpl.
      destruct H as (He & Hreg & Hpos & Hfr).
      unfold wf, has_events, registered, fresh_handles in *. simpl.
      rewrite Ht in Hfr. repeat split; try done.
      repeat constructor; simpl; by inversion Hfr.
  - rewrite tick1_idle by by apply wf_not_running. by apply wf_with_clock.
Qed.

Lemma wf_advance (n : nat) (w : World) : wf w -> wf (advance n w).
Proof.
  revert w. induction n as [|n IH]; intros w H; [done|].
  simpl. apply IH. by apply wf_tick1.
Qed.

Lemma wf_timers_running (w : World) (r : Registration) :
  wf w -> timers w = [r] ->
  runState (priv w) = running /\ countDown w = Some (rid r)
  /\ rid r <> 0%nat /\ this_null r = false.
Proof.
  intros (_ & Hreg & _) Ht. unfold registered in Hreg. by rewrite Ht in Hreg.
Qed.

Lemma tick1_published (w : World) :
  wf w ->
  published (tick1 w) = published w
  \/ published (tick1 w) = published w ++ ["currentTime"%string]
  \/ published (tick1 w) = published w ++ ["sessionStopped"%string].
Proof.
  intros H.
  destruct (decide (runState (priv w) = running)) as [Hrun|Hrun].
  - destruct (wf_running _ H Hrun) as (r & Ht & Hcd & Hr & Hnull).
    rewrite (tick1_eq _ r Ht). case_decide; [|by left].
    rewrite fire_eq; try done; [|apply H].
    destruct (isSessionComplete _ _); right; [right|left]; done.
  - rewrite tick1_idle by by apply wf_not_running. by left.
Qed.

(** ** Every timer is well formed *)

Lemma wf_publish (e : string) (w : World) : wf w -> wf (world_of (publish e w)).
Proof.
  intros H. destruct (publish_total e w) as [-> | ->]; simpl; [|done].
  by apply wf_deliver.
Qed.

Lemma wf_with_listeners (ls : gmap string (list (option Entry))) (w : World) :
  (forall e, is_Some (listeners w !! e) -> is_Some (ls !! e)) ->
  wf w -> wf (with_listeners ls w).
Proof.
  intros Hls (He & Hreg & Hf). split; [|done].
  unfold has_events in *. simpl. eapply Forall_impl; [exact He|].
  intros e. simpl. apply Hls.
Qed.

Lemma wf_subscribe (l e m : string) (w : World) :
  wf w -> wf (world_of (subscribe l e m w)).
Proof.
  intros H. unfold subscribe. destruct (listeners w !! e) as [arr|] eqn:E; [|done].
  simpl. apply wf_with_listeners; [|done].
  intros e' He'. rewrite lookup_insert. by case_decide.
Qed.

Lemma wf_remove (e : string) (i : nat) (w : World) :
  wf w -> wf (world_of (remove e i w)).
Proof.
  intros H. unfold remove. destruct (listeners w !! e) as [arr|] eqn:E; [|done].
  simpl. apply wf_with_listeners; [|done].
  intros e' He'. rewrite lookup_insert. by case_decide.
Qed.

Lemma wf_stepProcedure (step : string) (value : Z) (w : World) :
  wf w -> wf (world_of (stepProcedure step value w)).
Proof.
  intros H. unfold stepProcedure.
  destruct (String.eqb step "session") eqn:Es.
  - destruct (_ || _); [|done].
    unfold setStep. rewrite Es. destruct (0 <=? value); [|done].
    run_monad.
    set (w1 := with_priv (with_session value (priv w)) w).
    assert (wf w1) as H1 by (revert H; by apply wf_ext).
    destruct (publish_total "sessionChanged" w1) as [-> | ->]; [|done].
    apply wf_publish. by apply wf_deliver.
  - by destruct (String.eqb step "interval").
Qed.

Lemma wf_changeStep (convert : Options -> Converted) (stepNotChanged : string)
    (options : option Options) (w : World) :
  wf w -> wf (world_of (changeStep convert stepNotChanged options w)).
Proof.
  intros H. unfold changeStep. destruct options as [o|]; [|done].
  destruct (has_step (opt_step o)); [|done].
  destruct (_ || _); [|done].
  destruct (convert o) as [ms|msg]; [|done].
  unfold bind, ret.
  set (value := if _ <? 0 then 0 else _).
  pose proof (wf_stepProcedure (opt_step o) value w H) as H1.
  by destruct (stepProcedure (opt_step o) value w).
Qed.

Lemma wf_toggle_with (call : M JsVal) :
  (forall w, wf w -> wf (world_of (call w))) ->
  forall w, wf w -> wf (world_of (toggle_with call w)).
Proof.
  intros Hcall w H. unfold toggle_with, try_catch, bind.
  specialize (Hcall w H). destruct (call w) as [v w1|msg w1]; simpl in *.
  - destruct (truthy v); simpl; [done|].
    pose proof (wf_start w1 Hcall) as Hs.
    destruct (start w1) as [v2 w2|msg w2]; simpl in *; [done|].
    revert Hs. by apply wf_ext.
  - revert Hcall. by apply wf_ext.
Qed.

Section Reachability.

Variable convert : Options -> Converted.
Variable stepNotChanged : string.
Variable otherMethod : string -> M JsVal.

(** The methods that the class body does not define leave the timer well
    formed. *)
Hypothesis otherMethod_wf :
  forall name w, wf w -> wf (world_of (otherMethod name w)).

Lemma wf_callMethod (name : string) (w : World) :
  wf w ->
  wf (world_of (callMethod convert stepNotChanged otherMethod name w)).
Proof.
  intros H. unfold callMethod.
  repeat (match goal with
          | |- context [if ?b then _ else _] => destruct b
          end);
    auto using wf_start, wf_stop, wf_pause, wf_reset, wf_changeStep.
  apply wf_toggle_with; auto using wf_stop.
Qed.

Lemma wf_apply_op (w : World) (op : TimerOp) :
  wf w -> wf (apply_op convert stepNotChanged otherMethod w op).
Proof.
  intros H. destruct op; simpl;
    auto using wf_start, wf_stop, wf_pause, wf_reset, wf_changeStep,
               wf_subscribe, wf_remove, wf_publish, wf_advance.
  apply wf_toggle_with; [|done]. intros w'. apply wf_callMethod.
Qed.

(** A timer, however it has been used since its construction, is well
    formed. *)
Lemma wf_reachable (ops : list TimerOp) (session interval : Z)
    (d : Direction) (t0 : Z) :
  wf (foldl (apply_op convert stepNotChanged otherMethod)
        (new_timer session interval d t0) ops).
Proof.
  pose proof (wf_new_timer session interval d t0) as H.
  revert H. generalize (new_timer session interval d t0).
  induction ops as [|op ops IH]; intros w H; [done|].
  simpl. apply IH. by apply wf_apply_op.
Qed.

End Reachability.

(** ** [start], [stop] and the tick *)

(** C3: a timer that is already running answers [start()] with [false] and is
    left as it was: nothing is published and its one periodic registration
    stays the only one, so that at any later time a tick publishes
    [currentTime] at most once. *)
Theorem start_while_running (w : World) :
  wf w -> runState (priv w) = running ->
  start w = Returned (JsBool false) w
  /\ published (world_of (start w)) = published w
  /\ length (timers (world_of (start w))) = 1%nat
  /\ forall n : nat,
       let w_n := advance n (world_of (start w)) in
       exists l, published (tick1 w_n) = published w_n ++ l
                 /\ (length (filter (fun e => e = "currentTime"%string) l) <= 1)%nat.
Proof.
  intros Hwf Hrun.
  assert (start w = Returned (JsBool false) w) as E
    by (apply start_noop; by apply is_counting_true).
  rewrite E. simpl. split; [done|]. split; [done|]. split.
  - destruct (wf_running _ Hwf Hrun) as (r & -> & _). done.
  - intros n.
    destruct (tick1_published (advance n w) (wf_advance n w Hwf)) as [H|[H|H]].
    + exists []. rewrite app_nil_r. split; [done|]. simpl. lia.
    + exists ["currentTime"%string]. split; [done|]. vm_compute. lia.
    + exists ["sessionStopped"%string]. split; [done|]. vm_compute. lia.
Qed.

(** C4: on a tick of the registered callback, a complete session stops the
    timer, cancels the registration and publishes [sessionStopped] and no
    [currentTime], after which time passing fires nothing more; an open
    session has its sampled time set to the clock and [currentTime]
    published once. *)
Theorem tick_behaviour (w : World) (r : Registration) :
  wf w -> timers w = [r] ->
  let w' := fire (rid r) w in
  if isSessionComplete (clock w) (priv w)
  then runState (priv w') = stopped /\ timers w' = []
       /\ published w' = published w ++ ["sessionStopped"%string]
       /\ forall n : nat,
            timers (advance n w') = []
            /\ published (advance n w') = published w'
            /\ calls (advance n w') = calls w'
  else nowEpochMs (priv w') = clock w
       /\ published w' = published w ++ ["currentTime"%string]
       /\ runState (priv w') = running
       /\ timers w' = [mkReg (rid r) (due r + period r) (period r) false].
Proof.
  intros Hwf Ht.
  destruct (wf_timers_running _ _ Hwf Ht) as (Hrun & Hcd & Hr & Hnull).
  simpl. rewrite fire_eq; try done; [|apply Hwf].
  destruct (isSessionComplete (clock w) (priv w)) eqn:Hc.
  - assert (timers (completed w) = []) as Ht' by done.
    repeat split; try done.
    + simpl. unfold markStopped.
      apply is_counting_true in Hrun. by rewrite Hrun.
    + by rewrite advance_idle.
    + by rewrite advance_idle.
    + by rewrite advance_idle.
  - repeat split; done.
Qed.

(** C5: [stop()] on a timer that is neither running nor paused returns [false]
    and leaves everything as it was; on a running or paused timer it leaves no
    registration, marks the timer stopped and publishes [sessionStopped]
    once. *)
Theorem stop_behaviour (w : World) :
  wf w ->
  (runState (priv w) <> running -> runState (priv w) <> paused ->
   stop w = Returned (JsBool false) w)
  /\ (runState (priv w) = running \/ runState (priv w) = paused ->
      exists w', stop w = Returned JsThis w'
                 /\ timers w' = []
                 /\ runState (priv w') = stopped
                 /\ published w' = published w ++ ["sessionStopped"%string]).
Proof.
  intros Hwf. split.
  - intros H1 H2. apply stop_noop. apply orb_false_iff. split.
    + by apply is_counting_false.
    + unfold is_paused. by apply bool_decide_eq_false.
  - intros H.
    assert (is_counting (priv w) || is_paused (priv w) = true) as E.
    { apply orb_true_iff.
      destruct H; [left; by apply is_counting_true|right; by apply is_paused_true]. }
    eexists. split; [apply stop_eq; [apply Hwf|done]|].
    pose proof (wf_stop _ Hwf) as Hwf'. rewrite stop_eq in Hwf' by (done || apply Hwf).
    simpl in Hwf'.
    assert (runState (priv (deliver "sessionStopped"
              (clearCountDown (countDown w)
                 (with_priv (markStopped (clock w) (priv w)) w)))) = stopped) as Hs.
    { simpl.
      destruct (clearCountDown_fields (countDown w)
                  (with_priv (markStopped (clock w) (priv w)) w)) as (-> & _).
      simpl. unfold markStopped. by rewrite E. }
    split; [|split].
    + apply wf_not_running; [done|]. rewrite Hs. discriminate.
    + done.
    + simpl.
      destruct (clearCountDown_fields (countDown w)
                  (with_priv (markStopped (clock w) (priv w)) w))
        as (_ & _ & _ & _ & _ & -> & _).
      done.
Qed.

(** C6: a running timer whose banked time plus live delta has passed the
    session length is stopped with its banked time clamped to the session
    length (the time over it is not banked), so that its elapsed time is the
    session length whenever it is read afterwards. *)
Theorem stop_clamps_elapsed (w : World) :
  wf w -> runState (priv w) = running ->
  0 <= sessionLengthMs (priv w) ->
  sessionLengthMs (priv w) < rawElapsedMs (clock w) (priv w) ->
  exists w', stop w = Returned JsThis w'
             /\ runState (priv w') = stopped
             /\ sessionLengthMs (priv w') = sessionLengthMs (priv w)
             /\ accumulatedMs (priv w') = sessionLengthMs (priv w)
             /\ forall now, elapsedMs now (priv w') = sessionLengthMs (priv w).
Proof.
  intros Hwf Hrun Hpos Hover.
  pose proof Hrun as Hc. apply is_counting_true in Hc.
  eexists. split.
  { apply stop_eq; [apply Hwf|]. by rewrite Hc. }
  simpl.
  destruct (clearCountDown_fields (countDown w)
              (with_priv (markStopped (clock w) (priv w)) w)) as (-> & _).
  simpl. unfold markStopped. rewrite Hc. simpl.
  split; [done|]. split; [done|]. split; [lia|].
  intros now. unfold elapsedMs, clamp.
  set (banked := Z.min (rawElapsedMs (clock w) (priv w)) (sessionLengthMs (priv w))).
  assert (rawElapsedMs now (with_runState stopped (with_accumulated banked (priv w)))
          = banked) as ->.
  { unfold rawElapsedMs, liveDelta, is_counting. simpl. lia. }
  simpl. lia.
Qed.

(** ** [changeStep] *)

Lemma has_step_true (step : string) : has_step step = true <-> step ∈ steps.
Proof. unfold has_step. by rewrite bool_decide_eq_true. Qed.

Lemma has_step_false (step : string) : has_step step = false <-> step ∉ steps.
Proof. unfold has_step. by rewrite bool_decide_eq_false. Qed.

(** C7: [changeStep] with a step name that is not recognized throws
    [messages.stepNotChanged] to its caller and leaves the timer, its step
    values included, as it was. *)
Theorem changeStep_unrecognized_step
    (convert : Options -> Converted) (stepNotChanged : string)
    (o : Options) (w : World) :
  opt_step o ∉ TimerState.steps ->
  changeStep convert stepNotChanged (Some o) w = Thrown stepNotChanged w.
Proof.
  intros H. apply has_step_false in H. unfold changeStep. by rewrite H.
Qed.

(** C10: [changeStep] on a recognized step with [sign == -1] while that step
    is zero returns [false] and leaves the timer as it was, nothing mutated
    and nothing published, whatever [value] and [increment] are. *)
Theorem changeStep_decrement_at_zero
    (convert : Options -> Converted) (stepNotChanged : string)
    (o : Options) (w : World) :
  opt_step o ∈ TimerState.steps ->
  opt_sign o = Some (-1) ->
  getStep (opt_step o) (priv w) = 0 ->
  changeStep convert stepNotChanged (Some o) w = Returned (JsBool false) w.
Proof.
  intros Hs Hsign Hz. apply has_step_true in Hs.
  unfold changeStep. rewrite Hs, Hsign, Hz. reflexivity.
Qed.

(** C2, as the code has it: on a running or paused timer a session change
    that passes the sign test is committed, with [sessionChanged] and then
    [currentTime] published, exactly when the new value is strictly greater
    than the elapsed time; otherwise the timer is left as it was and nothing
    is published.  The call returns [true] either way; [false] is returned
    when the sign test fails. *)
Theorem changeStep_session_guard
    (convert : Options -> Converted) (stepNotChanged : string)
    (o : Options) (w : World) (ms : Z) :
  has_events w ->
  opt_step o = "session"%string ->
  runState (priv w) = running \/ runState (priv w) = paused ->
  convert o = Millis ms ->
  let value := newStepValue ms o (sessionLengthMs (priv w)) in
  changeStep convert stepNotChanged (Some o) w =
    if signGuard o (sessionLengthMs (priv w))
    then if decide (elapsedMs (clock w) (priv w) < value)
         then Returned (JsBool true)
                (deliver "currentTime"
                   (deliver "sessionChanged"
                      (with_priv (with_session value (priv w)) w)))
         else Returned (JsBool true) w
    else Returned (JsBool false) w.
Proof.
  intros He Hs Hact Hconv value.
  unfold changeStep. rewrite Hs. simpl.
  change (getStep "session" (priv w)) with (sessionLengthMs (priv w)).
  fold (signGuard o (sessionLengthMs (priv w))).
  destruct (signGuard o (sessionLengthMs (priv w))); [|done].
  rewrite Hconv. fold (newStepValue ms o (sessionLengthMs (priv w))).
  fold value. unfold bind at 1, stepProcedure. simpl.
  assert ((negb (is_counting (priv w)) && negb (is_paused (priv w))) = false) as ->.
  { apply andb_false_iff. destruct Hact as [H|H].
    - left. apply negb_false_iff. by apply is_counting_true.
    - right. apply negb_false_iff. by apply is_paused_true. }
  simpl. case_decide as Hlt.
  - assert ((elapsedMs (clock w) (priv w) <? value) = true) as -> by lia.
    assert (0 <= value) as Hnn.
    { unfold value, newStepValue. simpl. destruct (_ <? 0) eqn:E; lia. }
    unfold setStep. simpl.
    assert ((0 <=? value) = true) as -> by lia.
    run_monad. rewrite publish_ok by (simpl; event_key He).
    rewrite publish_ok by (simpl; event_key He). done.
  - assert ((elapsedMs (clock w) (priv w) <? value) = false) as -> by lia.
    done.
Qed.

(** ** [toggle] *)

Lemma toggle_with_toggled (call : M JsVal) (w : World) :
  toggle_with call w = toggled (call w).
Proof.
  unfold toggle_with, toggled, try_catch, bind.
  destruct (call w) as [v w1|msg w1]; [|done].
  destruct (truthy v); simpl; [done|]. by destruct (start w1).
Qed.

(** C8: [toggle] calls the method it is given by name: [start], [stop],
    [pause], [reset], [changeStep] and [toggle] itself are the methods of the
    class, [stop] is called when no name is given, a member that is no
    function makes the call a TypeError, and any other name goes to whatever
    else the object has under it.  A falsy result makes [toggle] call
    [start()]; an error thrown on the way is caught and reported with
    [console.warn]; [toggle] itself always returns.  So does
    [toggle("changeStep")], whose call throws for want of an argument. *)
Theorem toggle_catches
    (convert : Options -> Converted) (stepNotChanged : string)
    (otherMethod : string -> M JsVal)
    (method : option string) (w : World) :
  let call := callMethod convert stepNotChanged otherMethod
                (default "stop"%string method) in
  let toggle' := toggle convert stepNotChanged otherMethod in
  callMethod convert stepNotChanged otherMethod (default "stop"%string None)
    = stop
  /\ (exists w', toggle convert stepNotChanged otherMethod method w
                 = Returned JsUndefined w')
  /\ toggle convert stepNotChanged otherMethod method w =
       match call w with
       | Returned v w1 =>
           if truthy v then Returned JsUndefined w1
           else match start w1 with
                | Returned _ w2 => Returned JsUndefined w2
                | Thrown msg w2 =>
                    Returned JsUndefined (with_console (console w2 ++ [msg]) w2)
                end
       | Thrown msg w1 =>
           Returned JsUndefined (with_console (console w1 ++ [msg]) w1)
       end
  /\ toggle convert stepNotChanged otherMethod (Some "changeStep"%string) w
     = Returned JsUndefined (with_console (console w ++ [TypeError]) w)
  /\ toggle' (Some "start"%string) w = toggled (start w)
  /\ toggle' (Some "stop"%string) w = toggled (stop w)
  /\ toggle' (Some "pause"%string) w = toggled (pause w)
  /\ toggle' (Some "reset"%string) w = toggled (reset w)
  /\ toggle' (Some "changeStep"%string) w
     = toggled (changeStep convert stepNotChanged None w)
  /\ toggle' (Some "toggle"%string) w = toggled (toggle' None w)
  /\ toggle' None w = toggled (stop w)
  /\ (forall name : string,
        name ∈ ["status"; "session"; "event"; "_this"; "constructor"]%string ->
        toggle' (Some name) w = toggled (Thrown TypeError w))
  /\ (forall name : string,
        name ∉ ["start"; "stop"; "pause"; "reset"; "changeStep"; "toggle";
                "status"; "session"; "event"; "_this"; "constructor"]%string ->
        toggle' (Some name) w = toggled (otherMethod name w)).
Proof.
  intros call toggle'.
  assert (forall m, toggle' m w
            = toggled (callMethod convert stepNotChanged otherMethod
                         (default "stop"%string m) w)) as E.
  { intros m. unfold toggle', toggle. apply toggle_with_toggled. }
  split; [done|]. split.
  { unfold toggle' in E. rewrite E. fold call. unfold toggled.
    destruct (call w) as [v w1|msg w1]; [|by eexists].
    destruct (truthy v); [by eexists|].
    destruct (start w1); by eexists. }
  split; [exact (E method)|].
  split; [reflexivity|].
  split; [exact (E (Some "start"%string))|].
  split; [exact (E (Some "stop"%string))|].
  split; [exact (E (Some "pause"%string))|].
  split; [exact (E (Some "reset"%string))|].
  split; [exact (E (Some "changeStep"%string))|].
  split.
  { rewrite (E (Some "toggle"%string)), (E None).
    change (callMethod convert stepNotChanged otherMethod
              (default "stop"%string (Some "toggle"%string)))
      with (toggle_with stop).
    by rewrite toggle_with_toggled. }
  split; [exact (E None)|].
  split.
  - intros name Hin. rewrite E. f_equal. simpl.
    repeat (apply elem_of_cons in Hin as [->|Hin]; [reflexivity|]).
    by apply elem_of_nil in Hin.
  - intros name Hout. rewrite E. f_equal. simpl. unfold callMethod.
    repeat match goal with
           | |- context [String.eqb name ?m] =>
               destruct (String.eqb_spec name m) as [->|_];
               [exfalso; apply Hout; apply (bool_decide_unpack _);
                by vm_compute|]
           end.
    rewrite bool_decide_eq_false_2; [done|].
    intros Hin. apply Hout.
    repeat (apply elem_of_cons in Hin as [->|Hin];
            [apply (bool_decide_unpack _); by vm_compute|]).
    by apply elem_of_nil in Hin.
Qed.

(** ** Elapsed time across a pause *)

Lemma rawElapsedMs_running (now s : Z) (p : TimerState.t) :
  runState p = running -> startEpochMs p = Some s ->
  rawElapsedMs now p = accumulatedMs p + (now - s).
Proof.
  intros Hr Hs. unfold rawElapsedMs, liveDelta.
  apply is_counting_true in Hr. by rewrite Hr, Hs.
Qed.

Lemma rawElapsedMs_halted (now : Z) (p : TimerState.t) :
  runState p <> running -> rawElapsedMs now p = accumulatedMs p.
Proof.
  intros Hr. unfold rawElapsedMs, liveDelta.
  apply is_counting_false in Hr. rewrite Hr. lia.
Qed.

Lemma elapsedMs_in_range (now : Z) (p : TimerState.t) :
  0 <= rawElapsedMs now p <= sessionLengthMs p ->
  elapsedMs now p = rawElapsedMs now p.
Proof. intros H. unfold elapsedMs, clamp. lia. Qed.

Lemma session_open (now : Z) (p : TimerState.t) :
  0 <= rawElapsedMs now p < sessionLengthMs p ->
  isSessionComplete now p = false.
Proof.
  intros H. unfold isSessionComplete. rewrite elapsedMs_in_range by lia. lia.
Qed.

Lemma tick1_open (w : World) (s : Z) :
  wf w -> runState (priv w) = running -> startEpochMs (priv w) = Some s ->
  0 <= accumulatedMs (priv w) + (clock w - s) ->
  accumulatedMs (priv w) + (clock w + 1 - s) < sessionLengthMs (priv w) ->
  wf (tick1 w) /\ clock (tick1 w) = clock w + 1
  /\ same_account (priv w) (priv (tick1 w)).
Proof.
  intros Hwf Hrun Hs Hlo Hhi. split; [by apply wf_tick1|].
  destruct (wf_running _ Hwf Hrun) as (r & Ht & Hcd & Hr & Hnull).
  rewrite (tick1_eq _ r Ht). case_decide; [|done].
  rewrite fire_eq; try done; [|apply Hwf]. simpl.
  rewrite session_open; [done|].
  rewrite (rawElapsedMs_running _ s) by done. lia.
Qed.

Lemma advance_open (n : nat) (w : World) (s : Z) :
  wf w -> runState (priv w) = running -> startEpochMs (priv w) = Some s ->
  0 <= accumulatedMs (priv w) + (clock w - s) ->
  accumulatedMs (priv w) + (clock w + Z.of_nat n - s) < sessionLengthMs (priv w) ->
  wf (advance n w) /\ clock (advance n w) = clock w + Z.of_nat n
  /\ same_account (priv w) (priv (advance n w)).
Proof.
  revert w. induction n as [|n IH]; intros w Hwf Hrun Hs Hlo Hhi.
  - simpl. split; [done|]. split; [lia|done].
  - destruct (tick1_open w s) as (Hwf1 & Hc1 & E1 & E2 & E3 & E4); try done; [lia|].
    destruct (IH (tick1 w)) as (Hwf' & Hc' & F1 & F2 & F3 & F4); try congruence.
    + rewrite E3, Hc1. lia.
    + rewrite E1, E3, Hc1. lia.
    + simpl advance. split; [done|]. split; [lia|].
      unfold same_account. repeat split; congruence.
Qed.

Lemma tick1_upto (w : World) (s : Z) :
  wf w -> runState (priv w) = running -> startEpochMs (priv w) = Some s ->
  0 <= accumulatedMs (priv w) + (clock w - s) ->
  accumulatedMs (priv w) + (clock w + 1 - s) <= sessionLengthMs (priv w) ->
  elapsedMs (clock (tick1 w)) (priv (tick1 w))
  = accumulatedMs (priv w) + (clock w + 1 - s).
Proof.
  intros Hwf Hrun Hs Hlo Hhi.
  destruct (wf_running _ Hwf Hrun) as (r & Ht & Hcd & Hr & Hnull).
  assert (elapsedMs (clock w + 1) (priv w)
          = accumulatedMs (priv w) + (clock w + 1 - s)) as Hopen.
  { rewrite elapsedMs_in_range; rewrite (rawElapsedMs_running _ s) by done; lia. }
  rewrite (tick1_eq _ r Ht). case_decide; [|done].
  rewrite fire_eq; try done; [|apply Hwf]. simpl.
  destruct (isSessionComplete (clock w + 1) (priv w)) eqn:Hc; [|done].
  simpl. unfold markStopped.
  pose proof Hrun as Hcount. apply is_counting_true in Hcount. rewrite Hcount.
  simpl. rewrite elapsedMs_in_range.
  - rewrite rawElapsedMs_halted by done. simpl.
    rewrite (rawElapsedMs_running _ s) by done. lia.
  - rewrite rawElapsedMs_halted by done. simpl.
    rewrite (rawElapsedMs_running _ s) by done. lia.
Qed.

Lemma advance_upto (n : nat) (w : World) (s : Z) :
  wf w -> runState (priv w) = running -> startEpochMs (priv w) = Some s ->
  0 <= accumulatedMs (priv w) + (clock w - s) ->
  accumulatedMs (priv w) + (clock w + Z.of_nat n - s) <= sessionLengthMs (priv w) ->
  elapsedMs (clock (advance n w)) (priv (advance n w))
  = accumulatedMs (priv w) + (clock w + Z.of_nat n - s).
Proof.
  intros Hwf Hrun Hs Hlo Hhi. destruct n as [|n].
  - simpl advance. rewrite Z.add_0_r.
    rewrite elapsedMs_in_range; rewrite (rawElapsedMs_running _ s) by done; lia.
  - rewrite advance_snoc.
    destruct (advance_open n w s) as (Hwf' & Hc' & E1 & E2 & E3 & E4);
      try done; [lia|].
    rewrite (tick1_upto _ s); try congruence.
    + rewrite E3, Hc'. lia.
    + rewrite E3, Hc'. lia.
    + rewrite E1, E3, Hc'. lia.
Qed.

Lemma before_run_clock (w : World) : clock (before_run w) = clock w.
Proof. unfold before_run. by destruct (is_paused (priv w)). Qed.

Lemma started_clock (w : World) : clock (started w) = clock w.
Proof. unfold started. simpl. apply before_run_clock. Qed.

Lemma started_priv (w : World) :
  priv (started w) =
    markRunning (clock w)
      (if is_paused (priv w) then priv w else resetTimes (clock w) (priv w)).
Proof.
  unfold started. simpl. rewrite before_run_clock. f_equal.
  unfold before_run. by destruct (is_paused (priv w)).
Qed.

(** C1, as the code and the modelled accounting have it: from a timer that
    is neither running nor paused, [start(); advance(a); pause(); advance(b);
    start(); advance(c)] ends with [a + c] elapsed, whatever [b] is, as long
    as the session is not used up before the pause ([a] below the session
    length) and [a + c] does not pass the session length. *)
Theorem pause_resume_elapsed (w : World) (a b c : nat) :
  wf w ->
  runState (priv w) = idle \/ runState (priv w) = stopped ->
  Z.of_nat a < sessionLengthMs (priv w) ->
  Z.of_nat a + Z.of_nat c <= sessionLengthMs (priv w) ->
  let w' := pause_resume a b c w in
  elapsedMs (clock w') (priv w') = Z.of_nat a + Z.of_nat c.
Proof.
  intros Hwf Hst Ha Hac. unfold pause_resume.
  assert (runState (priv w) <> running) as Hnr by (destruct Hst; congruence).
  assert (is_paused (priv w) = false) as Hnp.
  { unfold is_paused. apply bool_decide_eq_false. destruct Hst; congruence. }
  (* start() *)
  rewrite (start_eq w) by (apply Hwf || by apply is_counting_false).
  cbn [world_of].
  pose proof (wf_started _ Hwf Hnr) as Hwf0.
  pose proof (started_priv w) as Hp0. rewrite Hnp in Hp0.
  pose proof (started_clock w) as Hc0.
  (* advance(a) *)
  destruct (advance_open a (started w) (clock w))
    as (Hwf1 & Hc1 & E1 & E2 & E3 & E4);
    try (rewrite ?Hp0, ?Hc0; simpl; done || lia).
  set (w1 := advance a (started w)) in *.
  rewrite Hp0 in E1, E2, E3, E4. simpl in E1, E2, E3, E4.
  (* pause() *)
  pose proof (wf_pause _ Hwf1) as Hwf2.
  rewrite (pause_eq w1) in * by (apply Hwf1 || by apply is_counting_true).
  cbn [world_of] in *.
  set (wp := deliver "sessionPaused" _) in *.
  assert (priv wp = markPaused (clock w1) (priv w1)) as Hpp.
  { unfold wp. simpl.
    by destruct (clearCountDown_fields (countDown w1)
                   (with_priv (markPaused (clock w1) (priv w1)) w1)) as (-> & _). }
  assert (clock wp = clock w1) as Hcp.
  { unfold wp. simpl.
    by destruct (clearCountDown_fields (countDown w1)
                   (with_priv (markPaused (clock w1) (priv w1)) w1))
      as (_ & -> & _). }
  unfold markPaused in Hpp. pose proof E4 as Hcount.
  apply is_counting_true in Hcount. rewrite Hcount in Hpp.
  rewrite (rawElapsedMs_running _ (clock w)) in Hpp by done.
  assert (timers wp = []) as Htp.
  { apply wf_not_running; [done|]. rewrite Hpp. simpl. discriminate. }
  (* advance(b) *)
  rewrite (advance_idle b wp Htp).
  set (w2 := with_clock _ wp).
  assert (wf w2) as Hwf3 by by apply wf_with_clock.
  assert (priv w2 = priv wp) as Hp2 by done.
  (* start() again *)
  assert (runState (priv w2) = paused) as Hpaused by (by rewrite Hp2, Hpp).
  rewrite (start_eq w2) by (apply Hwf3 || (apply is_counting_false; congruence)).
  cbn [world_of].
  assert (wf (started w2)) as Hwf4 by (apply wf_started; congruence).
  pose proof (started_priv w2) as Hp4.
  apply is_paused_true in Hpaused. rewrite Hpaused in Hp4.
  pose proof (started_clock w2) as Hc4.
  (* advance(c) *)
  rewrite (advance_upto c (started w2) (clock w2));
    rewrite ?Hp4, ?Hc4, ?Hp2, ?Hpp; simpl; try done; lia.
Qed.

(** ** The event channel over a history of subscriptions and removals *)

Lemma present_app (a b : list (option Entry)) :
  present (a ++ b) = present a ++ present b.
Proof. unfold present. apply omap_app. Qed.

Lemma present_appended (e : string) (k : nat) (ops : list ChannelOp) :
  present (appended e k ops) = registered_listeners e k ops.
Proof.
  revert k. induction ops as [|[l e' m|e' i] rest IH]; intros k; simpl; [done| |done].
  case_bool_decide; [|done].
  destruct (removed_later e k rest); unfold present in *; simpl; by rewrite IH.
Qed.

Lemma punch_nil (e : string) (ops : list ChannelOp) : punch e ops [] = [].
Proof.
  induction ops as [|[l e' m|e' i] rest IH]; simpl; [done|done|].
  by case_bool_decide.
Qed.

Lemma punch_snoc (e : string) (rest : list ChannelOp)
    (arr : list (option Entry)) (y : option Entry) :
  punch e rest (arr ++ [y])
  = punch e rest arr
      ++ [if removed_later e (length arr) rest then None else y].
Proof.
  revert arr y. induction rest as [|[l e' m|e' i] rest IH]; intros arr y.
  - done.
  - simpl. apply IH.
  - simpl. case_bool_decide as He; simpl.
    + destruct (lt_eq_lt_dec i (length arr)) as [[Hlt|Heq]|Hgt].
      * rewrite insert_app_l by done. rewrite IH, length_insert.
        rewrite bool_decide_eq_false_2 by lia. done.
      * rewrite (list_insert_ge arr) by lia.
        rewrite insert_app_r_alt by lia.
        replace (i - length arr)%nat with 0%nat by lia. simpl.
        rewrite IH. rewrite bool_decide_eq_true_2 by done. simpl.
        by destruct (removed_later e (length arr) rest).
      * rewrite !list_insert_ge by (rewrite ?length_app; simpl; lia).
        rewrite IH. rewrite bool_decide_eq_false_2 by lia. done.
    + rewrite IH. rewrite bool_decide_eq_false_2 by tauto. done.
Qed.

Lemma channel_run_array (ops : list ChannelOp) (w : World) (e : string)
    (arr : list (option Entry)) :
  listeners w !! e = Some arr ->
  listeners (channel_run ops w) !! e
  = Some (punch e ops arr ++ appended e (length arr) ops).
Proof.
  revert w arr. induction ops as [|[l e' m|e' i] rest IH]; intros w arr Harr.
  - simpl. by rewrite app_nil_r.
  - simpl. unfold subscribe. case_bool_decide as He.
    + subst e'. rewrite Harr. simpl.
      erewrite IH by (simpl; apply lookup_insert_eq).
      rewrite punch_snoc, length_app, <- app_assoc. simpl.
      by rewrite Nat.add_1_r.
    + destruct (listeners w !! e') as [arr'|] eqn:E; simpl.
      * apply IH. simpl. by rewrite lookup_insert_ne.
      * by apply IH.
  - simpl. unfold remove. case_bool_decide as He.
    + subst e'. rewrite Harr. simpl.
      erewrite IH by (simpl; apply lookup_insert_eq).
      by rewrite length_insert.
    + destruct (listeners w !! e') as [arr'|] eqn:E; simpl.
      * apply IH. simpl. by rewrite lookup_insert_ne.
      * by apply IH.
Qed.

(** C9: after any history of subscriptions and removals on a channel whose
    array for the event started empty, [publish] invokes exactly the
    listeners registered for that event and not removed since, in
    registration order; in particular a listener that subscribes and removes
    its registration right away is not invoked. *)
Theorem publish_in_registration_order
    (ops : list ChannelOp) (w : World) (e : string) :
  listeners w !! e = Some [] ->
  (exists w', publish e (channel_run ops w) = Returned tt w'
              /\ calls w' = calls (channel_run ops w)
                            ++ registered_listeners e 0 ops)
  /\ (forall l m,
        exists w1 w2 w3,
          subscribe l e m w = Returned 0%nat w1
          /\ remove e 0 w1 = Returned true w2
          /\ publish e w2 = Returned tt w3
          /\ calls w3 = calls w).
Proof.
  intros Harr.
  assert (forall ops', exists w',
            publish e (channel_run ops' w) = Returned tt w'
            /\ calls w' = calls (channel_run ops' w)
                          ++ registered_listeners e 0 ops') as Hgen.
  { intros ops'. pose proof (channel_run_array ops' w e [] Harr) as Hl.
    rewrite punch_nil in Hl. simpl in Hl.
    eexists. split; [apply publish_ok; by rewrite Hl|].
    unfold deliver. simpl. rewrite Hl. simpl. by rewrite present_appended. }
  split; [apply Hgen|].
  intros l m.
  destruct (Hgen [Subscribe l e m; Remove e 0]) as (w3 & Hpub & Hcalls).
  simpl in Hpub, Hcalls.
  rewrite bool_decide_eq_true_2 in Hcalls by done.
  rewrite (bool_decide_eq_true_2 (e = e /\ 0%nat = 0%nat)) in Hcalls by done.
  simpl in Hcalls. rewrite app_nil_r in Hcalls.
  unfold subscribe, remove in *. rewrite Harr in *. simpl in *.
  rewrite lookup_insert_eq in *. simpl in *.
  eexists _, _, w3. split; [reflexivity|]. simpl.
  rewrite lookup_insert_eq. simpl. split; [reflexivity|]. by split.
Qed.

(** ** A registration removed before any tick *)

Lemma mute_deliver (e : string) (w : World) :
  mute w -> calls (deliver e w) = calls w.
Proof.
  intros H. unfold deliver. simpl.
  destruct (listeners w !! e) as [arr|] eqn:E; simpl.
  - rewrite (H e arr E). apply app_nil_r.
  - apply app_nil_r.
Qed.

Lemma mute_ext (w w' : World) : listeners w' = listeners w -> mute w -> mute w'.
Proof. intros E H e arr. rewrite E. apply H. Qed.

Lemma mute_started (w : World) :
  mute w -> mute (started w) /\ calls (started w) = calls w.
Proof.
  intros H.
  assert (mute (before_run w) /\ calls (before_run w) = calls w) as [H0 C0].
  { unfold before_run. destruct (is_paused (priv w)); [done|]. split.
    - revert H. by apply mute_ext.
    - rewrite mute_deliver; [done|]. revert H. by apply mute_ext. }
  unfold started. split.
  - revert H0. by apply mute_ext.
  - rewrite mute_deliver; [done|]. revert H0. by apply mute_ext.
Qed.

Lemma mute_tick1 (w : World) :
  wf w -> mute w -> mute (tick1 w) /\ calls (tick1 w) = calls w.
Proof.
  intros Hwf H.
  destruct (decide (runState (priv w) = running)) as [Hrun|Hrun].
  - destruct (wf_running _ Hwf Hrun) as (r & Ht & Hcd & Hr & Hnull).
    rewrite (tick1_eq _ r Ht). case_decide; [|done].
    rewrite fire_eq; try done; [|apply Hwf]. simpl.
    destruct (isSessionComplete _ _).
    + unfold completed. split; [revert H; by apply mute_ext|].
      rewrite mute_deliver; [done|]. revert H. by apply mute_ext.
    + unfold ticked. split; [revert H; by apply mute_ext|].
      rewrite mute_deliver; [done|]. revert H. by apply mute_ext.
  - rewrite tick1_idle by by apply wf_not_running. done.
Qed.

Lemma mute_advance (n : nat) (w : World) :
  wf w -> mute w -> calls (advance n w) = calls w.
Proof.
  revert w. induction n as [|n IH]; intros w Hwf H; [done|].
  simpl. destruct (mute_tick1 w Hwf H) as [H1 C1].
  rewrite IH; [done| |done]. by apply wf_tick1.
Qed.

Lemma mute_new_timer (session interval : Z) (d : Direction) (t0 : Z) :
  mute (new_timer session interval d t0).
Proof.
  intros e arr H. unfold new_timer in H. cbn [listeners] in H.
  apply elem_of_list_to_map_2 in H. unfold events in H. simpl in H.
  repeat (apply elem_of_cons in H; destruct H as [H|H]; [by inversion H|]).
  by apply elem_of_nil in H.
Qed.

(** The scenario of the specification: on a new timer a listener subscribes
    to [currentTime] and removes its registration; the timer is started and
    time passes; no listener method is ever invoked. *)
Lemma removed_before_tick_never_invoked
    (session interval : Z) (d : Direction) (t0 : Z) (l m : string) (n : nat) :
  let w0 := new_timer session interval d t0 in
  let w1 := world_of (subscribe l "currentTime" m w0) in
  let w2 := world_of (remove "currentTime" 0 w1) in
  calls (advance n (world_of (start w2))) = [].
Proof.
  intros w0 w1 w2.
  assert (wf w2) as Hwf.
  { apply wf_remove, wf_subscribe, wf_new_timer. }
  assert ((listeners w0 !! "currentTime"%string) = Some []) as E0 by reflexivity.
  assert (listeners w1
          = <["currentTime"%string := [Some (mkEntry l m)]]> (listeners w0)) as E1.
  { unfold w1, subscribe. by rewrite E0. }
  assert (listeners w2 = <["currentTime"%string := [None]]> (listeners w1)) as E2.
  { unfold w2, remove. rewrite E1, lookup_insert_eq. simpl. reflexivity. }
  assert (mute w2) as Hm.
  { intros e arr H. rewrite E2, E1 in H.
    destruct (decide (e = "currentTime"%string)) as [->|Hne].
    - rewrite lookup_insert_eq in H. by inversion H.
    - rewrite !lookup_insert_ne in H by done.
      by apply (mute_new_timer session interval d t0 e). }
  rewrite start_eq; [|apply Hwf|done]. simpl.
  destruct (mute_started w2 Hm) as [Hm' Hc'].
  rewrite mute_advance; [by rewrite Hc'| |done].
  by apply wf_started.
Qed.

(** * Concrete runs *)

Ltac by_decision := apply (bool_decide_unpack _); vm_compute; exact I.

(** C1 fails as stated: with a session of five milliseconds, three
    milliseconds before the pause and four after it end with five elapsed,
    not seven. *)
Lemma pause_resume_session_bound :
  wf fresh_timer
  /\ runState (priv fresh_timer) = idle
  /\ elapsedMs (clock (pause_resume 3 2 4 fresh_timer))
               (priv (pause_resume 3 2 4 fresh_timer)) = 5
  /\ elapsedMs (clock (pause_resume 3 2 4 fresh_timer))
               (priv (pause_resume 3 2 4 fresh_timer))
     <> Z.of_nat 3 + Z.of_nat 4.
Proof.
  split; [by_decision|]. split; [reflexivity|].
  split; [by vm_compute|]. by vm_compute.
Qed.

Lemma pause_resume_elapsed_witness :
  wf fresh_timer
  /\ (runState (priv fresh_timer) = idle \/ runState (priv fresh_timer) = stopped)
  /\ Z.of_nat 2 < sessionLengthMs (priv fresh_timer)
  /\ Z.of_nat 2 + Z.of_nat 3 <= sessionLengthMs (priv fresh_timer)
  /\ elapsedMs (clock (pause_resume 2 4 3 fresh_timer))
               (priv (pause_resume 2 4 3 fresh_timer))
     = Z.of_nat 2 + Z.of_nat 3.
Proof.
  assert (wf fresh_timer) as Hwf by by_decision.
  assert (runState (priv fresh_timer) = idle
          \/ runState (priv fresh_timer) = stopped) as Hst by (left; reflexivity).
  assert (Z.of_nat 2 < sessionLengthMs (priv fresh_timer)) as Ha
    by (simpl; lia).
  assert (Z.of_nat 2 + Z.of_nat 3 <= sessionLengthMs (priv fresh_timer)) as Hac
    by (simpl; lia).
  split; [exact Hwf|]. split; [exact Hst|]. split; [exact Ha|].
  split; [exact Hac|].
  exact (pause_resume_elapsed fresh_timer 2 4 3 Hwf Hst Ha Hac).
Defined.

(** C2 fails as stated: on the running timer, three milliseconds in, a new
    session length of two milliseconds is dropped, and the call returns
    [true]. *)
Lemma changeStep_dropped_returns_true :
  runState (priv running_timer) = running
  /\ elapsedMs (clock running_timer) (priv running_timer) = 3
  /\ newStepValue 2 shrink_session (sessionLengthMs (priv running_timer)) = 2
  /\ changeStep convert_ms "stepNotChanged" (Some shrink_session) running_timer
     = Returned (JsBool true) running_timer
  /\ forall w',
       changeStep convert_ms "stepNotChanged" (Some shrink_session) running_timer
       <> Returned (JsBool false) w'.
Proof.
  assert (changeStep convert_ms "stepNotChanged" (Some shrink_session)
            running_timer = Returned (JsBool true) running_timer) as E
    by (by vm_compute).
  split; [reflexivity|]. split; [by vm_compute|]. split; [by vm_compute|].
  split; [exact E|]. intros w'. rewrite E. discriminate.
Qed.

Lemma changeStep_session_guard_witness :
  has_events running_timer
  /\ opt_step grow_session = "session"%string
  /\ (runState (priv running_timer) = running
      \/ runState (priv running_timer) = paused)
  /\ convert_ms grow_session = Millis 20
  /\ changeStep convert_ms "stepNotChanged" (Some grow_session) running_timer
     = if signGuard grow_session (sessionLengthMs (priv running_timer))
       then if decide (elapsedMs (clock running_timer) (priv running_timer)
                       < newStepValue 20 grow_session
                           (sessionLengthMs (priv running_timer)))
            then Returned (JsBool true)
                   (deliver "currentTime"
                      (deliver "sessionChanged"
                         (with_priv
                            (with_session
                               (newStepValue 20 grow_session
                                  (sessionLengthMs (priv running_timer)))
                               (priv running_timer)) running_timer)))
            else Returned (JsBool true) running_timer
       else Returned (JsBool false) running_timer.
Proof.
  assert (has_events running_timer) as He by by_decision.
  assert (opt_step grow_session = "session"%string) as Hs by reflexivity.
  assert (runState (priv running_timer) = running
          \/ runState (priv running_timer) = paused) as Hact
    by (left; reflexivity).
  assert (convert_ms grow_session = Millis 20) as Hc by reflexivity.
  split; [exact He|]. split; [exact Hs|]. split; [exact Hact|].
  split; [exact Hc|].
  exact (changeStep_session_guard convert_ms "stepNotChanged" grow_session
           running_timer 20 He Hs Hact Hc).
Defined.

Lemma start_while_running_witness :
  wf running_timer
  /\ runState (priv running_timer) = running
  /\ start running_timer = Returned (JsBool false) running_timer
  /\ length (timers (world_of (start running_timer))) = 1%nat.
Proof.
  assert (wf running_timer) as Hwf by by_decision.
  assert (runState (priv running_timer) = running) as Hrun by reflexivity.
  split; [exact Hwf|]. split; [exact Hrun|].
  destruct (start_while_running running_timer Hwf Hrun) as (H1 & _ & H3 & _).
  split; [exact H1|exact H3].
Defined.

Lemma toggle_catches_witness :
  ("status"%string
   ∈ ["status"; "session"; "event"; "_this"; "constructor"]%string)
  /\ toggle convert_ms "stepNotChanged" no_other_method
       (Some "status"%string) running_timer
     = toggled (Thrown TypeError running_timer)
  /\ ("resume"%string
      ∉ ["start"; "stop"; "pause"; "reset"; "changeStep"; "toggle";
         "status"; "session"; "event"; "_this"; "constructor"]%string)
  /\ toggle convert_ms "stepNotChanged" no_other_method
       (Some "resume"%string) running_timer
     = toggled (no_other_method "resume" running_timer)
  /\ toggle convert_ms "stepNotChanged" no_other_method
       (Some "pause"%string) running_timer
     = toggled (pause running_timer).
Proof.
  assert ("status"%string
          ∈ ["status"; "session"; "event"; "_this"; "constructor"]%string)
    as Hin by by_decision.
  assert ("resume"%string
          ∉ ["start"; "stop"; "pause"; "reset"; "changeStep"; "toggle";
             "status"; "session"; "event"; "_this"; "constructor"]%string)
    as Hout by by_decision.
  pose proof (toggle_catches convert_ms "stepNotChanged" no_other_method
                None running_timer) as H.
  cbv zeta in H.
  destruct H as (_ & _ & _ & _ & _ & _ & Hpause & _ & _ & _ & _ & Hnf & Hother).
  split; [exact Hin|]. split; [exact (Hnf "status"%string Hin)|].
  split; [exact Hout|]. split; [exact (Hother "resume"%string Hout)|].
  exact Hpause.
Defined.

Lemma tick_behaviour_witness :
  (wf closing_timer
   /\ timers closing_timer = [mkReg 1 110 10 false]
   /\ isSessionComplete (clock closing_timer) (priv closing_timer) = true
   /\ runState (priv (fire 1 closing_timer)) = stopped
   /\ timers (fire 1 closing_timer) = []
   /\ published (fire 1 closing_timer)
      = published closing_timer ++ ["sessionStopped"%string])
  /\ (wf sampling_timer
      /\ timers sampling_timer = [mkReg 1 110 10 false]
      /\ isSessionComplete (clock sampling_timer) (priv sampling_timer) = false
      /\ nowEpochMs (priv (fire 1 sampling_timer)) = clock sampling_timer
      /\ published (fire 1 sampling_timer)
         = published sampling_timer ++ ["currentTime"%string]).
Proof.
  split.
  - assert (wf closing_timer) as Hwf by by_decision.
    assert (timers closing_timer = [mkReg 1 110 10 false]) as Ht by reflexivity.
    assert (isSessionComplete (clock closing_timer) (priv closing_timer) = true)
      as Hc by reflexivity.
    pose proof (tick_behaviour closing_timer (mkReg 1 110 10 false) Hwf Ht) as H.
    cbv zeta in H. rewrite Hc in H. destruct H as (H1 & H2 & H3 & _).
    split; [exact Hwf|]. split; [exact Ht|]. split; [exact Hc|].
    split; [exact H1|]. split; [exact H2|exact H3].
  - assert (wf sampling_timer) as Hwf by by_decision.
    assert (timers sampling_timer = [mkReg 1 110 10 false]) as Ht by reflexivity.
    assert (isSessionComplete (clock sampling_timer) (priv sampling_timer) = false)
      as Hc by reflexivity.
    pose proof (tick_behaviour sampling_timer (mkReg 1 110 10 false) Hwf Ht) as H.
    cbv zeta in H. rewrite Hc in H. destruct H as (H1 & H2 & _).
    split; [exact Hwf|]. split; [exact Ht|]. split; [exact Hc|].
    split; [exact H1|exact H2].
Defined.

Lemma stop_behaviour_witness :
  (wf running_timer
   /\ (runState (priv running_timer) = running
       \/ runState (priv running_timer) = paused)
   /\ exists w', stop running_timer = Returned JsThis w'
                 /\ timers w' = []
                 /\ runState (priv w') = stopped
                 /\ published w'
                    = published running_timer ++ ["sessionStopped"%string])
  /\ (wf fresh_timer
      /\ runState (priv fresh_timer) <> running
      /\ runState (priv fresh_timer) <> paused
      /\ stop fresh_timer = Returned (JsBool false) fresh_timer).
Proof.
  split.
  - assert (wf running_timer) as Hwf by by_decision.
    assert (runState (priv running_timer) = running
            \/ runState (priv running_timer) = paused) as Hact
      by (left; reflexivity).
    split; [exact Hwf|]. split; [exact Hact|].
    exact (proj2 (stop_behaviour running_timer Hwf) Hact).
  - assert (wf fresh_timer) as Hwf by by_decision.
    assert (runState (priv fresh_timer) <> running) as H1 by by_decision.
    assert (runState (priv fresh_timer) <> paused) as H2 by by_decision.
    split; [exact Hwf|]. split; [exact H1|]. split; [exact H2|].
    exact (proj1 (stop_behaviour fresh_timer Hwf) H1 H2).
Defined.

Lemma stop_clamps_elapsed_witness :
  wf overdue_timer
  /\ runState (priv overdue_timer) = running
  /\ 0 <= sessionLengthMs (priv overdue_timer)
  /\ sessionLengthMs (priv overdue_timer)
     < rawElapsedMs (clock overdue_timer) (priv overdue_timer)
  /\ exists w', stop overdue_timer = Returned JsThis w'
                /\ runState (priv w') = stopped
                /\ sessionLengthMs (priv w') = sessionLengthMs (priv overdue_timer)
                /\ accumulatedMs (priv w') = sessionLengthMs (priv overdue_timer)
                /\ forall now,
                     elapsedMs now (priv w') = sessionLengthMs (priv overdue_timer).
Proof.
  assert (wf overdue_timer) as Hwf by by_decision.
  assert (runState (priv overdue_timer) = running) as Hrun by reflexivity.
  assert (0 <= sessionLengthMs (priv overdue_timer)) as Hpos
    by (vm_compute; discriminate).
  assert (sessionLengthMs (priv overdue_timer)
          < rawElapsedMs (clock overdue_timer) (priv overdue_timer)) as Hover
    by (vm_compute; reflexivity).
  split; [exact Hwf|]. split; [exact Hrun|]. split; [exact Hpos|].
  split; [exact Hover|].
  exact (stop_clamps_elapsed overdue_timer Hwf Hrun Hpos Hover).
Defined.

Lemma changeStep_unrecognized_step_witness :
  (opt_step change_volume ∉ TimerState.steps)
  /\ changeStep convert_ms "stepNotChanged" (Some change_volume) running_timer
     = Thrown "stepNotChanged" running_timer.
Proof.
  assert (opt_step change_volume ∉ TimerState.steps) as H by by_decision.
  split; [exact H|].
  exact (changeStep_unrecognized_step convert_ms "stepNotChanged"
           change_volume running_timer H).
Defined.

Lemma changeStep_decrement_at_zero_witness :
  (opt_step decrement_session ∈ TimerState.steps)
  /\ opt_sign decrement_session = Some (-1)
  /\ getStep (opt_step decrement_session) (priv empty_session_timer) = 0
  /\ changeStep convert_ms "stepNotChanged" (Some decrement_session)
       empty_session_timer
     = Returned (JsBool false) empty_session_timer.
Proof.
  assert (opt_step decrement_session ∈ TimerState.steps) as Hs by by_decision.
  assert (opt_sign decrement_session = Some (-1)) as Hsign by reflexivity.
  assert (getStep (opt_step decrement_session) (priv empty_session_timer) = 0)
    as Hz by reflexivity.
  split; [exact Hs|]. split; [exact Hsign|]. split; [exact Hz|].
  exact (changeStep_decrement_at_zero convert_ms "stepNotChanged"
           decrement_session empty_session_timer Hs Hsign Hz).
Defined.

Lemma publish_in_registration_order_witness :
  (listeners fresh_timer !! "currentTime"%string) = Some []
  /\ exists w',
       publish "currentTime" (channel_run two_listeners fresh_timer)
       = Returned tt w'
       /\ calls w' = calls (channel_run two_listeners fresh_timer)
                     ++ registered_listeners "currentTime" 0 two_listeners.
Proof.
  assert ((listeners fresh_timer !! "currentTime"%string) = Some []) as H
    by reflexivity.
  split; [exact H|].
  exact (proj1 (publish_in_registration_order two_listeners fresh_timer
                  "currentTime" H)).
Defined.

Example two_listeners_live :
  registered_listeners "currentTime" 0 two_listeners
  = [mkEntry "listenerB" "onTick"].
Proof. reflexivity. Qed.

Example toggle_changeStep_is_caught :
  toggle convert_ms "stepNotChanged" no_other_method (Some "changeStep"%string)
    fresh_timer
  = Returned JsUndefined
      (with_console [TypeError] fresh_timer).
Proof. reflexivity. Qed.

Example toggle_default_starts_idle_timer :
  runState (priv (world_of
     (toggle convert_ms "stepNotChanged" no_other_method None fresh_timer)))
  = running.
Proof. reflexivity. Qed.

(** * Further properties of the class *)

(** ** The event channel: handles, removals, unknown names *)

Lemma punch_length (e : string) (ops : list ChannelOp)
    (arr : list (option Entry)) :
  length (punch e ops arr) = length arr.
Proof.
  revert arr. induction ops as [|[l e' m|e' i] rest IH]; intros arr; simpl;
    [done|apply IH|].
  rewrite IH. case_bool_decide; [apply length_insert|done].
Qed.

Lemma appended_length (e : string) (k : nat) (ops : list ChannelOp) :
  length (appended e k ops) = subscriptions e ops.
Proof.
  revert k.
  induction ops as [|[l e' m|e' i] rest IH]; intros k; simpl; [done| |apply IH].
  case_bool_decide; simpl; by rewrite IH.
Qed.

(** X1: the handle that [subscribe] returns is the length the array had at the
    start plus the number of subscriptions made to the event since, whatever
    has been removed in between: an index is never handed out twice, so an
    old handle cannot remove a later registration. *)
Theorem subscribe_handle_never_reused
    (ops : list ChannelOp) (w : World) (e l m : string)
    (arr : list (option Entry)) :
  listeners w !! e = Some arr ->
  exists w', subscribe l e m (channel_run ops w)
             = Returned (length arr + subscriptions e ops)%nat w'.
Proof.
  intros Harr. pose proof (channel_run_array ops w e arr Harr) as H.
  unfold subscribe. rewrite H. eexists.
  by rewrite length_app, punch_length, appended_length.
Qed.

Lemma subscribe_handle_never_reused_witness :
  (listeners fresh_timer !! "currentTime"%string) = Some []
  /\ exists w', subscribe "listenerC" "currentTime" "onTick"
                  (channel_run two_listeners fresh_timer)
                = Returned (length (@nil (option Entry))
                            + subscriptions "currentTime" two_listeners)%nat w'.
Proof.
  assert ((listeners fresh_timer !! "currentTime"%string) = Some []) as H
    by reflexivity.
  split; [exact H|].
  exact (subscribe_handle_never_reused two_listeners fresh_timer
           "currentTime" "listenerC" "onTick" [] H).
Defined.

(** X2: [remove()] on a handle that has been used already returns [true]
    again and changes nothing. *)
Theorem remove_twice (w : World) (e : string) (i : nat) :
  is_Some (listeners w !! e) ->
  remove e i (world_of (remove e i w))
  = Returned true (world_of (remove e i w)).
Proof.
  intros [arr Harr]. unfold remove. rewrite Harr. simpl.
  rewrite lookup_insert_eq. simpl.
  by rewrite insert_insert_eq, list_insert_insert_eq.
Qed.

Lemma remove_twice_witness :
  is_Some (listeners subscribed_timer !! "currentTime"%string)
  /\ (listeners (world_of (remove "currentTime" 0 subscribed_timer))
      !! "currentTime"%string)
     = Some [None; Some (mkEntry "listenerB" "onTick")]
  /\ remove "currentTime" 0 (world_of (remove "currentTime" 0 subscribed_timer))
     = Returned true (world_of (remove "currentTime" 0 subscribed_timer)).
Proof.
  assert (is_Some (listeners subscribed_timer !! "currentTime"%string)) as H
    by by_decision.
  split; [exact H|]. split; [reflexivity|].
  exact (remove_twice subscribed_timer "currentTime" 0 H).
Defined.

Lemma channel_run_unknown (ops : list ChannelOp) (w : World) (e : string) :
  listeners w !! e = None -> listeners (channel_run ops w) !! e = None.
Proof.
  revert w. induction ops as [|[l e' m|e' i] rest IH]; intros w H; [done| |].
  - simpl. apply IH. unfold subscribe.
    destruct (listeners w !! e') as [arr|] eqn:E; simpl; [|done].
    rewrite lookup_insert_ne; [done|]. intros ->. congruence.
  - simpl. apply IH. unfold remove.
    destruct (listeners w !! e') as [arr|] eqn:E; simpl; [|done].
    rewrite lookup_insert_ne; [done|]. intros ->. congruence.
Qed.

(** X3: an event name for which the listeners object has no array stays
    without one whatever is subscribed or removed, and [subscribe], [remove()]
    and [publish] on it throw a TypeError and leave everything as it was. *)
Theorem unknown_event_throws
    (ops : list ChannelOp) (w : World) (e l m : string) (i : nat) :
  listeners w !! e = None ->
  let w' := channel_run ops w in
  subscribe l e m w' = Thrown TypeError w'
  /\ remove e i w' = Thrown TypeError w'
  /\ publish e w' = Thrown TypeError w'.
Proof.
  intros H w'.
  assert (listeners w' !! e = None) as H' by by apply channel_run_unknown.
  unfold subscribe, remove, publish. by rewrite H'.
Qed.

Lemma unknown_event_throws_witness :
  (listeners fresh_timer !! "sessionEnded"%string) = None
  /\ subscribe "listenerA" "sessionEnded" "onEnd"
       (channel_run two_listeners fresh_timer)
     = Thrown TypeError (channel_run two_listeners fresh_timer)
  /\ remove "sessionEnded" 0 (channel_run two_listeners fresh_timer)
     = Thrown TypeError (channel_run two_listeners fresh_timer)
  /\ publish "sessionEnded" (channel_run two_listeners fresh_timer)
     = Thrown TypeError (channel_run two_listeners fresh_timer).
Proof.
  assert ((listeners fresh_timer !! "sessionEnded"%string) = None) as H
    by reflexivity.
  split; [exact H|].
  exact (unknown_event_throws two_listeners fresh_timer "sessionEnded"
           "listenerA" "onEnd" 0 H).
Defined.

(** ** [start], [pause], [stop] and [reset] one after the other *)

Lemma before_run_rest (w : World) :
  is_paused (priv w) = false ->
  before_run w
  = deliver "timerReset" (with_priv (resetTimes (clock w) (priv w)) w).
Proof. intros H. unfold before_run. by rewrite H. Qed.

Lemma before_run_paused (w : World) :
  is_paused (priv w) = true -> before_run w = w.
Proof. intros H. unfold before_run. by rewrite H. Qed.

Lemma is_paused_false (p : TimerState.t) :
  is_paused p = false <-> runState p <> paused.
Proof. unfold is_paused. by rewrite bool_decide_eq_false. Qed.

Lemma hostDelay_in_range (delay : Z) :
  delay <= TIMEOUT_MAX -> hostDelay delay = Z.max 1 delay.
Proof.
  intros H. unfold hostDelay.
  destruct (1 <=? delay) eqn:E1; destruct (delay <=? TIMEOUT_MAX) eqn:E2;
    simpl; lia.
Qed.

(** X4: [start()] on a timer that is neither running nor paused, with an
    interval of at most [2^31 - 1] milliseconds, returns [this], publishes
    [timerReset] and then [sessionStarted], and leaves the timer running from
    zero with exactly one registration, under a new handle kept in
    [countDown], first due one interval (at least one millisecond) from
    now. *)
Theorem start_from_rest (w : World) :
  wf w -> runState (priv w) <> running -> runState (priv w) <> paused ->
  intervalMs (priv w) <= TIMEOUT_MAX ->
  exists w', start w = Returned JsThis w'
    /\ runState (priv w') = running
    /\ published w' = published w ++ ["timerReset"; "sessionStarted"]%string
    /\ countDown w' = Some (next_handle w)
    /\ timers w' = [mkReg (next_handle w)
                          (clock w + Z.max 1 (intervalMs (priv w)))
                          (Z.max 1 (intervalMs (priv w))) false]
    /\ clock w' = clock w
    /\ elapsedMs (clock w') (priv w') = 0.
Proof.
  intros Hwf Hnr Hnp Hmax.
  exists (started w). split.
  { apply start_eq; [apply Hwf|by apply is_counting_false]. }
  apply is_paused_false in Hnp.
  pose proof (wf_not_running _ Hwf Hnr) as Ht.
  unfold started. rewrite (before_run_rest _ Hnp). simpl. rewrite Ht. simpl.
  rewrite (hostDelay_in_range _ Hmax).
  repeat split; try done.
  - by rewrite <- app_assoc.
  - unfold elapsedMs, rawElapsedMs, liveDelta, is_counting, clamp. simpl. lia.
Qed.

Lemma start_from_rest_witness :
  wf fresh_timer
  /\ runState (priv fresh_timer) <> running
  /\ runState (priv fresh_timer) <> paused
  /\ intervalMs (priv fresh_timer) <= TIMEOUT_MAX
  /\ exists w', start fresh_timer = Returned JsThis w'
       /\ runState (priv w') = running
       /\ published w'
          = published fresh_timer ++ ["timerReset"; "sessionStarted"]%string
       /\ countDown w' = Some (next_handle fresh_timer)
       /\ timers w' = [mkReg (next_handle fresh_timer)
                             (clock fresh_timer
                              + Z.max 1 (intervalMs (priv fresh_timer)))
                             (Z.max 1 (intervalMs (priv fresh_timer))) false]
       /\ clock w' = clock fresh_timer
       /\ elapsedMs (clock w') (priv w') = 0.
Proof.
  assert (wf fresh_timer) as Hwf by by_decision.
  assert (runState (priv fresh_timer) <> running) as H1 by by_decision.
  assert (runState (priv fresh_timer) <> paused) as H2 by by_decision.
  assert (intervalMs (priv fresh_timer) <= TIMEOUT_MAX) as H3
    by (vm_compute; discriminate).
  split; [exact Hwf|]. split; [exact H1|]. split; [exact H2|].
  split; [exact H3|].
  exact (start_from_rest fresh_timer Hwf H1 H2 H3).
Defined.

(** X5: [start()] on a paused timer returns [this] and publishes
    [sessionStarted] only; the banked time and the session are kept, the new
    run segment starts at the present clock, and there is exactly one
    registration again, under a new handle. *)
Theorem start_resumes (w : World) :
  wf w -> runState (priv w) = paused ->
  exists w', start w = Returned JsThis w'
    /\ runState (priv w') = running
    /\ published w' = published w ++ ["sessionStarted"%string]
    /\ accumulatedMs (priv w') = accumulatedMs (priv w)
    /\ sessionLengthMs (priv w') = sessionLengthMs (priv w)
    /\ startEpochMs (priv w') = Some (clock w)
    /\ countDown w' = Some (next_handle w)
    /\ timers w' = [mkReg (next_handle w)
                          (clock w + hostDelay (intervalMs (priv w)))
                          (hostDelay (intervalMs (priv w))) false].
Proof.
  intros Hwf Hp.
  assert (runState (priv w) <> running) as Hnr by congruence.
  exists (started w). split.
  { apply start_eq; [apply Hwf|by apply is_counting_false]. }
  apply is_paused_true in Hp.
  pose proof (wf_not_running _ Hwf Hnr) as Ht.
  unfold started. rewrite (before_run_paused _ Hp). simpl. rewrite Ht.
  repeat split; done.
Qed.

Lemma start_resumes_witness :
  wf paused_timer
  /\ runState (priv paused_timer) = paused
  /\ exists w', start paused_timer = Returned JsThis w'
       /\ runState (priv w') = running
       /\ published w' = published paused_timer ++ ["sessionStarted"%string]
       /\ accumulatedMs (priv w') = accumulatedMs (priv paused_timer)
       /\ sessionLengthMs (priv w') = sessionLengthMs (priv paused_timer)
       /\ startEpochMs (priv w') = Some (clock paused_timer)
       /\ countDown w' = Some (next_handle paused_timer)
       /\ timers w' = [mkReg (next_handle paused_timer)
                             (clock paused_timer
                              + hostDelay (intervalMs (priv paused_timer)))
                             (hostDelay (intervalMs (priv paused_timer))) false].
Proof.
  assert (wf paused_timer) as Hwf by by_decision.
  assert (runState (priv paused_timer) = paused) as Hp by reflexivity.
  split; [exact Hwf|]. split; [exact Hp|].
  exact (start_resumes paused_timer Hwf Hp).
Defined.

Lemma paused_fields (w : World) :
  let w' := deliver "sessionPaused"
              (clearCountDown (countDown w)
                 (with_priv (markPaused (clock w) (priv w)) w)) in
  priv w' = markPaused (clock w) (priv w)
  /\ published w' = published w ++ ["sessionPaused"%string]
  /\ clock w' = clock w.
Proof.
  simpl.
  destruct (clearCountDown_fields (countDown w)
              (with_priv (markPaused (clock w) (priv w)) w))
    as (-> & -> & _ & _ & _ & -> & _).
  done.
Qed.

Lemma stopped_fields (w : World) :
  let w' := deliver "sessionStopped"
              (clearCountDown (countDown w)
                 (with_priv (markStopped (clock w) (priv w)) w)) in
  priv w' = markStopped (clock w) (priv w)
  /\ published w' = published w ++ ["sessionStopped"%string]
  /\ clock w' = clock w.
Proof.
  simpl.
  destruct (clearCountDown_fields (countDown w)
              (with_priv (markStopped (clock w) (priv w)) w))
    as (-> & -> & _ & _ & _ & -> & _).
  done.
Qed.

(** X6: [pause()] on a timer that is not running returns [false] and leaves
    everything as it was; on a running timer it returns [this], leaves no
    registration, marks the timer paused and publishes [sessionPaused]
    once. *)
Theorem pause_behaviour (w : World) :
  wf w ->
  (runState (priv w) <> running -> pause w = Returned (JsBool false) w)
  /\ (runState (priv w) = running ->
      exists w', pause w = Returned JsThis w'
                 /\ timers w' = []
                 /\ runState (priv w') = paused
                 /\ published w' = published w ++ ["sessionPaused"%string]).
Proof.
  intros Hwf. split.
  - intros H. apply pause_noop. by apply is_counting_false.
  - intros H. pose proof H as Hc. apply is_counting_true in Hc.
    eexists. split; [apply pause_eq; [apply Hwf|done]|].
    pose proof (wf_pause _ Hwf) as Hwf'.
    rewrite pause_eq in Hwf' by (done || apply Hwf). cbn [world_of] in Hwf'.
    destruct (paused_fields w) as (Hp & Hpub & _).
    assert (runState (markPaused (clock w) (priv w)) = paused) as Hs.
    { unfold markPaused. by rewrite Hc. }
    split; [|split].
    + apply wf_not_running; [done|]. rewrite Hp, Hs. discriminate.
    + by rewrite Hp.
    + exact Hpub.
Qed.

Lemma pause_behaviour_witness :
  (wf running_timer
   /\ runState (priv running_timer) = running
   /\ exists w', pause running_timer = Returned JsThis w'
                 /\ timers w' = []
                 /\ runState (priv w') = paused
                 /\ published w'
                    = published running_timer ++ ["sessionPaused"%string])
  /\ (wf fresh_timer
      /\ runState (priv fresh_timer) <> running
      /\ pause fresh_timer = Returned (JsBool false) fresh_timer).
Proof.
  split.
  - assert (wf running_timer) as Hwf by by_decision.
    assert (runState (priv running_timer) = running) as Hr by reflexivity.
    split; [exact Hwf|]. split; [exact Hr|].
    exact (proj2 (pause_behaviour running_timer Hwf) Hr).
  - assert (wf fresh_timer) as Hwf by by_decision.
    assert (runState (priv fresh_timer) <> running) as Hr by by_decision.
    split; [exact Hwf|]. split; [exact Hr|].
    exact (proj1 (pause_behaviour fresh_timer Hwf) Hr).
Defined.

Lemma runState_after_pause (w : World) :
  wf w -> runState (priv (world_of (pause w))) <> running.
Proof.
  intros Hwf. destruct (is_counting (priv w)) eqn:Hc.
  - rewrite pause_eq by (done || apply Hwf). cbn [world_of].
    destruct (paused_fields w) as (-> & _). unfold markPaused. rewrite Hc.
    simpl. discriminate.
  - rewrite pause_noop by done. simpl. by apply is_counting_false.
Qed.

Lemma runState_after_stop (w : World) :
  wf w ->
  runState (priv (world_of (stop w))) <> running
  /\ runState (priv (world_of (stop w))) <> paused.
Proof.
  intros Hwf. destruct (is_counting (priv w) || is_paused (priv w)) eqn:Hc.
  - rewrite stop_eq by (done || apply Hwf). cbn [world_of].
    destruct (stopped_fields w) as (-> & _). unfold markStopped. rewrite Hc.
    simpl. split; discriminate.
  - rewrite stop_noop by done. simpl. apply orb_false_iff in Hc as [H1 H2].
    split; [by apply is_counting_false|by apply is_paused_false].
Qed.

(** X7: halting is not repeated: right after [pause()] a second [pause()]
    returns [false], and right after [stop()] both [stop()] and [pause()]
    return [false]; each of these second calls leaves everything as it was,
    so nothing is published twice. *)
Theorem second_halt_is_noop (w : World) :
  wf w ->
  pause (world_of (pause w)) = Returned (JsBool false) (world_of (pause w))
  /\ stop (world_of (stop w)) = Returned (JsBool false) (world_of (stop w))
  /\ pause (world_of (stop w)) = Returned (JsBool false) (world_of (stop w)).
Proof.
  intros Hwf.
  pose proof (runState_after_pause w Hwf) as Hp.
  destruct (runState_after_stop w Hwf) as [Hs1 Hs2].
  split; [|split].
  - apply pause_noop. by apply is_counting_false.
  - apply stop_noop. apply orb_false_iff.
    split; [by apply is_counting_false|by apply is_paused_false].
  - apply pause_noop. by apply is_counting_false.
Qed.

Lemma second_halt_is_noop_witness :
  wf running_timer
  /\ pause (world_of (pause running_timer))
     = Returned (JsBool false) (world_of (pause running_timer))
  /\ stop (world_of (stop running_timer))
     = Returned (JsBool false) (world_of (stop running_timer))
  /\ pause (world_of (stop running_timer))
     = Returned (JsBool false) (world_of (stop running_timer)).
Proof.
  assert (wf running_timer) as Hwf by by_decision.
  split; [exact Hwf|]. exact (second_halt_is_noop running_timer Hwf).
Defined.

(** X8: [reset()] returns [undefined] and publishes [timerReset] once; it
    zeroes the banked time and moves the segment start to the present clock,
    so that nothing is elapsed whatever the run state, but it keeps the run
    state, the registration and its handle: a running timer goes on ticking,
    now from zero. *)
Theorem reset_keeps_the_schedule (w : World) :
  has_events w ->
  exists w', reset w = Returned JsUndefined w'
    /\ published w' = published w ++ ["timerReset"%string]
    /\ runState (priv w') = runState (priv w)
    /\ timers w' = timers w
    /\ countDown w' = countDown w
    /\ accumulatedMs (priv w') = 0
    /\ startEpochMs (priv w') = Some (clock w)
    /\ sessionLengthMs (priv w') = sessionLengthMs (priv w)
    /\ elapsedMs (clock w') (priv w') = 0.
Proof.
  intros He. eexists. split; [by apply reset_eq|]. repeat split; try done.
  unfold elapsedMs, rawElapsedMs, liveDelta, clamp. simpl.
  destruct (is_counting _); lia.
Qed.

Lemma reset_keeps_the_schedule_witness :
  has_events running_timer
  /\ exists w', reset running_timer = Returned JsUndefined w'
       /\ published w' = published running_timer ++ ["timerReset"%string]
       /\ runState (priv w') = runState (priv running_timer)
       /\ timers w' = timers running_timer
       /\ countDown w' = countDown running_timer
       /\ accumulatedMs (priv w') = 0
       /\ startEpochMs (priv w') = Some (clock running_timer)
       /\ sessionLengthMs (priv w') = sessionLengthMs (priv running_timer)
       /\ elapsedMs (clock w') (priv w') = 0.
Proof.
  assert (has_events running_timer) as He by by_decision.
  split; [exact He|]. exact (reset_keeps_the_schedule running_timer He).
Defined.

(** ** [changeStep]: what it commits, what it lets through, what it keeps *)

Lemma same_but_session_refl (w : World) : same_but_session w w.
Proof. unfold same_but_session. tauto. Qed.

Lemma same_but_session_publish (e : string) (w0 w : World) :
  same_but_session w0 w -> same_but_session w0 (world_of (publish e w)).
Proof.
  intros H. destruct (publish_total e w) as [-> | ->]; simpl; [|done].
  exact H.
Qed.

(** The effect of any call of [changeStep]: apart from the traces, either
    nothing, or a new session length that is not negative and, on a running
    or paused timer, greater than the elapsed time. *)
Lemma changeStep_effect
    (convert : Options -> Converted) (stepNotChanged : string)
    (options : option Options) (w : World) :
  let w' := world_of (changeStep convert stepNotChanged options w) in
  same_but_session w w'
  /\ (sessionLengthMs (priv w') = sessionLengthMs (priv w)
      \/ (0 <= sessionLengthMs (priv w')
          /\ (runState (priv w) = running \/ runState (priv w) = paused ->
              elapsedMs (clock w) (priv w) < sessionLengthMs (priv w')))).
Proof.
  assert (same_but_session w w /\
          (sessionLengthMs (priv w) = sessionLengthMs (priv w)
           \/ (0 <= sessionLengthMs (priv w)
               /\ (runState (priv w) = running \/ runState (priv w) = paused ->
                   elapsedMs (clock w) (priv w) < sessionLengthMs (priv w)))))
    as Hsame by (split; [apply same_but_session_refl|by left]).
  unfold changeStep. destruct options as [o|]; [|exact Hsame].
  destruct (has_step (opt_step o)); [|exact Hsame].
  destruct (_ || _); [|exact Hsame].
  destruct (convert o) as [ms|msg]; [|exact Hsame].
  set (value := if _ <? 0 then 0 else _).
  assert (0 <= value) as Hnn by (unfold value; destruct (_ <? 0) eqn:E; lia).
  unfold bind, ret, stepProcedure.
  destruct (String.eqb (opt_step o) "session") eqn:Es.
  - destruct (_ || _) eqn:Hg; [|exact Hsame].
    unfold setStep. rewrite Es.
    assert ((0 <=? value) = true) as -> by lia.
    unfold bind, modify. cbv beta.
    set (w1 := with_priv (with_session value (priv w)) w).
    assert (same_but_session w w1) as H1 by (unfold same_but_session; tauto).
    assert (runState (priv w) = running \/ runState (priv w) = paused ->
            elapsedMs (clock w) (priv w) < value) as Hlt.
    { intros Hact. apply orb_true_iff in Hg as [Hg|Hg]; [|lia].
      apply andb_true_iff in Hg as [Hg1 Hg2].
      apply negb_true_iff in Hg1, Hg2.
      apply is_counting_false in Hg1. apply is_paused_false in Hg2.
      destruct Hact; congruence. }
    destruct (publish_total "sessionChanged" w1) as [-> | ->].
    + destruct (publish_total "currentTime" (deliver "sessionChanged" w1))
        as [-> | ->];
        (split; [exact H1|right; split; [exact Hnn|exact Hlt]]).
    + split; [exact H1|right; split; [exact Hnn|exact Hlt]].
  - destruct (String.eqb (opt_step o) "interval"); exact Hsame.
Qed.

(** X9: no call of [changeStep], whatever its argument and however it ends,
    touches the interval, the run state, the banked time, the clock, the
    registrations or the listeners; and it never leaves a session length
    below zero. *)
Theorem changeStep_keeps_the_timer
    (convert : Options -> Converted) (stepNotChanged : string)
    (options : option Options) (w : World) :
  0 <= sessionLengthMs (priv w) ->
  let w' := world_of (changeStep convert stepNotChanged options w) in
  same_but_session w w' /\ 0 <= sessionLengthMs (priv w').
Proof.
  intros Hnn w'.
  destruct (changeStep_effect convert stepNotChanged options w) as [H1 H2].
  split; [exact H1|]. fold w' in H2. destruct H2 as [->|[H2 _]]; done.
Qed.

Lemma changeStep_keeps_the_timer_witness :
  0 <= sessionLengthMs (priv running_timer)
  /\ same_but_session running_timer
       (world_of (changeStep convert_ms "stepNotChanged" (Some grow_session)
                    running_timer))
  /\ 0 <= sessionLengthMs
            (priv (world_of (changeStep convert_ms "stepNotChanged"
                               (Some grow_session) running_timer))).
Proof.
  assert (0 <= sessionLengthMs (priv running_timer)) as H
    by (vm_compute; discriminate).
  split; [exact H|].
  exact (changeStep_keeps_the_timer convert_ms "stepNotChanged"
           (Some grow_session) running_timer H).
Defined.

(** X10: on a running or paused timer whose session is not complete, no call
    of [changeStep] completes it: afterwards the elapsed time is still below
    the session length. *)
Theorem changeStep_keeps_session_open
    (convert : Options -> Converted) (stepNotChanged : string)
    (options : option Options) (w : World) :
  runState (priv w) = running \/ runState (priv w) = paused ->
  isSessionComplete (clock w) (priv w) = false ->
  let w' := world_of (changeStep convert stepNotChanged options w) in
  isSessionComplete (clock w') (priv w') = false.
Proof.
  intros Hact Hopen w'.
  destruct (changeStep_effect convert stepNotChanged options w)
    as [(_ & _ & Hs & Ha & _ & Hr & Hc & _) H2].
  fold w' in Hs, Ha, Hr, Hc, H2.
  assert (forall now, rawElapsedMs now (priv w') = rawElapsedMs now (priv w))
    as Hraw.
  { intros now. unfold rawElapsedMs, liveDelta, is_counting.
    by rewrite Hs, Ha, Hr. }
  unfold isSessionComplete, elapsedMs, clamp in *.
  rewrite Hc, Hraw. destruct H2 as [->|[Hnn Hlt]]; [done|].
  specialize (Hlt Hact). unfold elapsedMs, clamp in Hlt. lia.
Qed.

Lemma changeStep_keeps_session_open_witness :
  (runState (priv running_timer) = running
   \/ runState (priv running_timer) = paused)
  /\ isSessionComplete (clock running_timer) (priv running_timer) = false
  /\ isSessionComplete
       (clock (world_of (changeStep convert_ms "stepNotChanged"
                           (Some shrink_session) running_timer)))
       (priv (world_of (changeStep convert_ms "stepNotChanged"
                          (Some shrink_session) running_timer)))
     = false.
Proof.
  assert (runState (priv running_timer) = running
          \/ runState (priv running_timer) = paused) as Hact
    by (left; reflexivity).
  assert (isSessionComplete (clock running_timer) (priv running_timer) = false)
    as Hopen by reflexivity.
  split; [exact Hact|]. split; [exact Hopen|].
  exact (changeStep_keeps_session_open convert_ms "stepNotChanged"
           (Some shrink_session) running_timer Hact Hopen).
Defined.

(** X11: on a timer that is neither running nor paused a session change that
    passes the sign test is always committed, however short: the session
    becomes the computed value, never below zero, [sessionChanged] and then
    [currentTime] are published, and the call returns [true]. *)
Theorem changeStep_session_at_rest
    (convert : Options -> Converted) (stepNotChanged : string)
    (o : Options) (w : World) (ms : Z) :
  has_events w ->
  opt_step o = "session"%string ->
  runState (priv w) <> running -> runState (priv w) <> paused ->
  convert o = Millis ms ->
  signGuard o (sessionLengthMs (priv w)) = true ->
  let value := newStepValue ms o (sessionLengthMs (priv w)) in
  0 <= value
  /\ changeStep convert stepNotChanged (Some o) w
     = Returned (JsBool true)
         (deliver "currentTime"
            (deliver "sessionChanged"
               (with_priv (with_session value (priv w)) w))).
Proof.
  intros He Hs Hnr Hnp Hconv Hg value.
  assert (0 <= value) as Hnn.
  { unfold value, newStepValue. simpl. destruct (_ <? 0) eqn:E; lia. }
  split; [exact Hnn|].
  unfold changeStep. rewrite Hs. simpl.
  change (getStep "session" (priv w)) with (sessionLengthMs (priv w)).
  fold (signGuard o (sessionLengthMs (priv w))). rewrite Hg, Hconv.
  fold (newStepValue ms o (sessionLengthMs (priv w))). fold value.
  unfold bind at 1, stepProcedure. simpl.
  apply is_counting_false in Hnr. apply is_paused_false in Hnp.
  rewrite Hnr, Hnp. simpl. unfold setStep. simpl.
  assert ((0 <=? value) = true) as -> by lia.
  run_monad. rewrite publish_ok by (simpl; event_key He).
  rewrite publish_ok by (simpl; event_key He). done.
Qed.

Lemma changeStep_session_at_rest_witness :
  has_events fresh_timer
  /\ opt_step decrement_session = "session"%string
  /\ runState (priv fresh_timer) <> running
  /\ runState (priv fresh_timer) <> paused
  /\ convert_ms decrement_session = Millis 5
  /\ signGuard decrement_session (sessionLengthMs (priv fresh_timer)) = true
  /\ 0 <= newStepValue 5 decrement_session (sessionLengthMs (priv fresh_timer))
  /\ changeStep convert_ms "stepNotChanged" (Some decrement_session) fresh_timer
     = Returned (JsBool true)
         (deliver "currentTime"
            (deliver "sessionChanged"
               (with_priv
                  (with_session
                     (newStepValue 5 decrement_session
                        (sessionLengthMs (priv fresh_timer)))
                     (priv fresh_timer)) fresh_timer))).
Proof.
  assert (has_events fresh_timer) as He by by_decision.
  assert (opt_step decrement_session = "session"%string) as Hs by reflexivity.
  assert (runState (priv fresh_timer) <> running) as H1 by by_decision.
  assert (runState (priv fresh_timer) <> paused) as H2 by by_decision.
  assert (convert_ms decrement_session = Millis 5) as Hc by reflexivity.
  assert (signGuard decrement_session (sessionLengthMs (priv fresh_timer))
          = true) as Hg by reflexivity.
  split; [exact He|]. split; [exact Hs|]. split; [exact H1|].
  split; [exact H2|]. split; [exact Hc|]. split; [exact Hg|].
  exact (changeStep_session_at_rest convert_ms "stepNotChanged"
           decrement_session fresh_timer 5 He Hs H1 H2 Hc Hg).
Defined.

(** X12: an error of the conversion is not caught by [changeStep]: on a
    recognized step that passes the sign test it reaches the caller with
    nothing changed; when the sign test fails the value is not converted at
    all and the call returns [false]. *)
Theorem changeStep_conversion_error
    (convert : Options -> Converted) (stepNotChanged : string)
    (o : Options) (w : World) (msg : string) :
  opt_step o ∈ TimerState.steps ->
  convert o = ConvertError msg ->
  changeStep convert stepNotChanged (Some o) w
  = if signGuard o (getStep (opt_step o) (priv w))
    then Thrown msg w
    else Returned (JsBool false) w.
Proof.
  intros Hs Hc. apply has_step_true in Hs.
  unfold changeStep. rewrite Hs. simpl.
  fold (signGuard o (getStep (opt_step o) (priv w))).
  destruct (signGuard o (getStep (opt_step o) (priv w))); [|done].
  by rewrite Hc.
Qed.

Lemma changeStep_conversion_error_witness :
  (opt_step grow_session ∈ TimerState.steps)
  /\ convert_rejects grow_session = ConvertError "InvalidValue"
  /\ changeStep convert_rejects "stepNotChanged" (Some grow_session)
       running_timer
     = if signGuard grow_session
            (getStep (opt_step grow_session) (priv running_timer))
       then Thrown "InvalidValue" running_timer
       else Returned (JsBool false) running_timer.
Proof.
  assert (opt_step grow_session ∈ TimerState.steps) as Hs by by_decision.
  assert (convert_rejects grow_session = ConvertError "InvalidValue") as Hc
    by reflexivity.
  split; [exact Hs|]. split; [exact Hc|].
  exact (changeStep_conversion_error convert_rejects "stepNotChanged"
           grow_session running_timer "InvalidValue" Hs Hc).
Defined.

(** X13: the [interval] step is accepted and ignored: a call that passes the
    sign test and converts returns [true], and the timer, its traces
    included, is exactly as before. *)
Theorem changeStep_interval_is_ignored
    (convert : Options -> Converted) (stepNotChanged : string)
    (o : Options) (w : World) (ms : Z) :
  opt_step o = "interval"%string ->
  convert o = Millis ms ->
  changeStep convert stepNotChanged (Some o) w
  = Returned (JsBool (signGuard o (intervalMs (priv w)))) w.
Proof.
  intros Hs Hc. unfold changeStep. rewrite Hs. simpl.
  change (getStep "interval" (priv w)) with (intervalMs (priv w)).
  fold (signGuard o (intervalMs (priv w))).
  destruct (signGuard o (intervalMs (priv w))); [|done].
  by rewrite Hc.
Qed.

Lemma changeStep_interval_is_ignored_witness :
  opt_step change_interval = "interval"%string
  /\ convert_ms change_interval = Millis 250
  /\ changeStep convert_ms "stepNotChanged" (Some change_interval)
       running_timer
     = Returned (JsBool (signGuard change_interval
                           (intervalMs (priv running_timer)))) running_timer.
Proof.
  assert (opt_step change_interval = "interval"%string) as Hs by reflexivity.
  assert (convert_ms change_interval = Millis 250) as Hc by reflexivity.
  split; [exact Hs|]. split; [exact Hc|].
  exact (changeStep_interval_is_ignored convert_ms "stepNotChanged"
           change_interval running_timer 250 Hs Hc).
Defined.

(** ** [toggle] with the methods of the class *)

Lemma toggle_with_returned (call : M JsVal) (w w1 : World) (v : JsVal) :
  call w = Returned v w1 ->
  toggle_with call w
  = if truthy v then Returned JsUndefined w1
    else match start w1 with
         | Returned _ w2 => Returned JsUndefined w2
         | Thrown msg w2 =>
             Returned JsUndefined (with_console (console w2 ++ [msg]) w2)
         end.
Proof.
  intros H. unfold toggle_with, try_catch, bind. rewrite H.
  destruct (truthy v); simpl; [done|]. by destruct (start w1).
Qed.

Lemma runState_started (w : World) : runState (priv (started w)) = running.
Proof. by rewrite started_priv. Qed.

(** X14: [toggle("pause")] pauses a running timer and sets any other timer
    running: a paused one is resumed with its banked time kept, an idle or
    stopped one is started. *)
Theorem toggle_pause_alternates
    (convert : Options -> Converted) (stepNotChanged : string)
    (otherMethod : string -> M JsVal) (w : World) :
  wf w ->
  let w' := world_of (toggle convert stepNotChanged otherMethod
                        (Some "pause"%string) w) in
  runState (priv w')
  = (if decide (runState (priv w) = running) then paused else running)
  /\ (runState (priv w) = paused ->
      accumulatedMs (priv w') = accumulatedMs (priv w)).
Proof.
  intros Hwf. unfold toggle.
  change (callMethod convert stepNotChanged otherMethod
            (default "stop"%string (Some "pause"%string))) with pause.
  case_decide as Hrun.
  - pose proof Hrun as Hc. apply is_counting_true in Hc.
    rewrite (toggle_with_returned pause w _ JsThis (pause_eq w (proj1 Hwf) Hc)).
    cbn [truthy world_of].
    destruct (paused_fields w) as (Hp & _). split.
    + rewrite Hp. unfold markPaused. by rewrite Hc.
    + intros Hpaused. congruence.
  - pose proof Hrun as Hc. apply is_counting_false in Hc.
    rewrite (toggle_with_returned pause w _ (JsBool false) (pause_noop w Hc)).
    cbn [truthy]. rewrite (start_eq w (proj1 Hwf) Hc). cbn [world_of].
    split; [apply runState_started|].
    intros Hpaused. apply is_paused_true in Hpaused.
    rewrite started_priv, Hpaused. done.
Qed.

Lemma toggle_pause_alternates_witness :
  wf running_timer
  /\ runState (priv (world_of (toggle convert_ms "stepNotChanged"
                                 no_other_method (Some "pause"%string)
                                 running_timer)))
     = (if decide (runState (priv running_timer) = running)
        then paused else running).
Proof.
  assert (wf running_timer) as Hwf by by_decision.
  split; [exact Hwf|].
  exact (proj1 (toggle_pause_alternates convert_ms "stepNotChanged"
                  no_other_method running_timer Hwf)).
Defined.

(** X15: [toggle()] without an argument stops a running or paused timer (a
    paused one is not resumed) and starts any other. *)
Theorem toggle_default_stops_or_starts
    (convert : Options -> Converted) (stepNotChanged : string)
    (otherMethod : string -> M JsVal) (w : World) :
  wf w ->
  let w' := world_of (toggle convert stepNotChanged otherMethod None w) in
  runState (priv w')
  = (if decide (runState (priv w) = running \/ runState (priv w) = paused)
     then stopped else running).
Proof.
  intros Hwf. unfold toggle.
  change (callMethod convert stepNotChanged otherMethod
            (default "stop"%string None)) with stop.
  case_decide as Hact.
  - assert (is_counting (priv w) || is_paused (priv w) = true) as Hc.
    { apply orb_true_iff. destruct Hact; [left|right];
        [by apply is_counting_true|by apply is_paused_true]. }
    rewrite (toggle_with_returned stop w _ JsThis (stop_eq w (proj1 Hwf) Hc)).
    cbn [truthy world_of].
    destruct (stopped_fields w) as (Hp & _).
    rewrite Hp. unfold markStopped. by rewrite Hc.
  - assert (is_counting (priv w) || is_paused (priv w) = false) as Hc.
    { apply orb_false_iff. split;
        [apply is_counting_false|apply is_paused_false]; tauto. }
    rewrite (toggle_with_returned stop w _ (JsBool false) (stop_noop w Hc)).
    cbn [truthy]. apply orb_false_iff in Hc as [Hc _].
    rewrite (start_eq w (proj1 Hwf) Hc). cbn [world_of].
    apply runState_started.
Qed.

Lemma toggle_default_stops_or_starts_witness :
  wf paused_timer
  /\ runState (priv (world_of (toggle convert_ms "stepNotChanged"
                                 no_other_method None paused_timer)))
     = (if decide (runState (priv paused_timer) = running
                   \/ runState (priv paused_timer) = paused)
        then stopped else running).
Proof.
  assert (wf paused_timer) as Hwf by by_decision.
  split; [exact Hwf|].
  exact (toggle_default_stops_or_starts convert_ms "stepNotChanged"
           no_other_method paused_timer Hwf).
Defined.

(** X16: [toggle("reset")] always ends with the timer running and nothing
    elapsed: [reset()] returns [undefined], which [toggle] takes for a
    refusal, so [start()] is called after every reset. *)
Theorem toggle_reset_restarts
    (convert : Options -> Converted) (stepNotChanged : string)
    (otherMethod : string -> M JsVal) (w : World) :
  wf w ->
  let w' := world_of (toggle convert stepNotChanged otherMethod
                        (Some "reset"%string) w) in
  runState (priv w') = running
  /\ elapsedMs (clock w') (priv w') = 0.
Proof.
  intros Hwf. unfold toggle.
  change (callMethod convert stepNotChanged otherMethod
            (default "stop"%string (Some "reset"%string))) with reset.
  rewrite (toggle_with_returned reset w _ JsUndefined (reset_eq w (proj1 Hwf))).
  cbn [truthy].
  set (w1 := deliver "timerReset" (with_priv (resetTimes (clock w) (priv w)) w)).
  assert (wf w1) as Hwf1.
  { pose proof (wf_reset w Hwf) as H. by rewrite reset_eq in H by apply Hwf. }
  destruct (is_counting (priv w1)) eqn:Hc.
  - rewrite (start_noop w1 Hc). cbn [world_of]. split.
    + by apply is_counting_true.
    + unfold elapsedMs, rawElapsedMs, liveDelta, clamp. rewrite Hc.
      unfold w1. simpl. lia.
  - rewrite (start_eq w1 (proj1 Hwf1) Hc). cbn [world_of].
    split; [apply runState_started|].
    rewrite started_priv, started_clock.
    unfold elapsedMs, rawElapsedMs, liveDelta, is_counting, clamp.
    destruct (is_paused (priv w1)); unfold w1; simpl; lia.
Qed.

Lemma toggle_reset_restarts_witness :
  wf paused_timer
  /\ runState (priv (world_of (toggle convert_ms "stepNotChanged"
                                 no_other_method (Some "reset"%string)
                                 paused_timer))) = running
  /\ elapsedMs
       (clock (world_of (toggle convert_ms "stepNotChanged" no_other_method
                           (Some "reset"%string) paused_timer)))
       (priv (world_of (toggle convert_ms "stepNotChanged" no_other_method
                          (Some "reset"%string) paused_timer))) = 0.
Proof.
  assert (wf paused_timer) as Hwf by by_decision.
  split; [exact Hwf|].
  exact (toggle_reset_restarts convert_ms "stepNotChanged" no_other_method
           paused_timer Hwf).
Defined.

(** ** One registration, whatever is done to the timer *)

(** X17: however a client has used a timer since its construction (methods
    called in any order and with any arguments, listeners subscribed and
    removed, events published, time passing), it has exactly one periodic
    registration while it is running, the one whose handle is in
    [countDown], and none otherwise; and the array of every event is still
    there.  This is for listener methods that return without calling the
    timer, as [invoke] has them.  A listener that calls back is outside it:
    [start()] sets [is_counting] only after its [reset()] has published
    [timerReset], so a listener of [timerReset] that calls [start()] makes a
    second registration, of which [stop()] clears only the one in
    [countDown]. *)
Theorem one_registration_iff_running
    (convert : Options -> Converted) (stepNotChanged : string)
    (otherMethod : string -> M JsVal)
    (ops : list TimerOp) (session interval : Z) (d : Direction) (t0 : Z) :
  (forall name w, wf w -> wf (world_of (otherMethod name w))) ->
  let w := foldl (apply_op convert stepNotChanged otherMethod)
                 (new_timer session interval d t0) ops in
  (runState (priv w) = running ->
   exists r, timers w = [r] /\ countDown w = Some (rid r))
  /\ (runState (priv w) <> running -> timers w = [])
  /\ Forall (fun e => is_Some (listeners w !! e)) events.
Proof.
  intros Hother w.
  pose proof (wf_reachable convert stepNotChanged otherMethod Hother ops
                session interval d t0) as Hwf.
  fold w in Hwf. split; [|split].
  - intros Hrun. destruct (wf_running _ Hwf Hrun) as (r & Ht & Hcd & _).
    by exists r.
  - by apply wf_not_running.
  - apply Hwf.
Qed.

Lemma one_registration_iff_running_witness :
  (forall name w, wf w -> wf (world_of (no_other_method name w)))
  /\ runState (priv (foldl (apply_op convert_ms "stepNotChanged"
                              no_other_method) fresh_timer busy_history))
     <> running
  /\ timers (foldl (apply_op convert_ms "stepNotChanged" no_other_method)
               fresh_timer busy_history) = [].
Proof.
  assert (forall name w, wf w -> wf (world_of (no_other_method name w))) as H
    by (intros name w Hw; exact Hw).
  assert (runState (priv (foldl (apply_op convert_ms "stepNotChanged"
                                   no_other_method) fresh_timer busy_history))
          <> running) as Hnr by by_decision.
  split; [exact H|]. split; [exact Hnr|].
  exact (proj1 (proj2 (one_registration_iff_running convert_ms
                         "stepNotChanged" no_other_method busy_history
                         5 1 down 100 H)) Hnr).
Defined.

(** ** Ticks over a whole session *)

Lemma advance_add (n m : nat) (w : World) :
  advance (n + m) w = advance m (advance n w).
Proof. revert w. induction n as [|n IH]; intros w; [done|]. simpl. apply IH. Qed.

Lemma with_clock_twice (a b : Z) (w : World) :
  with_clock a (with_clock b w) = with_clock a w.
Proof. done. Qed.

Lemma advance_quiet (m : nat) (w : World) (r : Registration) :
  timers w = [r] -> clock w + Z.of_nat m < due r ->
  advance m w = with_clock (clock w + Z.of_nat m) w.
Proof.
  revert w. induction m as [|m IH]; intros w Ht Hdue.
  - simpl advance. rewrite Z.add_0_r. by destruct w.
  - simpl advance. rewrite (tick1_eq w r Ht).
    rewrite decide_False by lia.
    rewrite (IH (with_clock (clock w + 1) w) Ht) by (simpl; lia). simpl.
    rewrite with_clock_twice. f_equal. lia.
Qed.

Lemma advance_period (P : nat) (w : World) (r : Registration) :
  wf w -> timers w = [r] -> (1 <= P)%nat -> due r = clock w + Z.of_nat P ->
  advance P w
  = if isSessionComplete (clock w + Z.of_nat P) (priv w)
    then completed (with_clock (clock w + Z.of_nat P) w)
    else ticked r (with_clock (clock w + Z.of_nat P) w).
Proof.
  intros Hwf Ht HP Hdue. destruct P as [|P']; [lia|].
  replace (S P') with (P' + 1)%nat by lia.
  rewrite advance_add, (advance_quiet P' w r Ht) by lia.
  simpl advance.
  set (w1 := with_clock (clock w + Z.of_nat P') w).
  assert (wf w1) as Hwf1 by by apply wf_with_clock.
  assert (timers w1 = [r]) as Ht1 by done.
  rewrite (tick1_eq w1 r Ht1). rewrite decide_True by (simpl; lia).
  destruct (wf_timers_running _ _ Hwf1 Ht1) as (Hrun & Hcd & Hr & Hnull).
  rewrite fire_eq; try done; [|apply Hwf1].
  unfold w1. rewrite with_clock_twice. simpl.
  replace (clock w + Z.of_nat P' + 1) with (clock w + Z.of_nat (P' + 1)) by lia.
  done.
Qed.

Lemma periodOf_Z (w : World) :
  intervalMs (priv w) <= TIMEOUT_MAX ->
  Z.of_nat (periodOf w) = hostDelay (intervalMs (priv w))
  /\ (1 <= periodOf w)%nat.
Proof.
  intros H. rewrite (hostDelay_in_range _ H). unfold periodOf. lia.
Qed.

Lemma ticking_started (w : World) :
  wf w -> runState (priv w) <> running ->
  intervalMs (priv w) <= TIMEOUT_MAX ->
  ticking (clock w) (bankedAtStart w) (periodOf w) (published (started w)) 0
          (started w)
  /\ sessionLengthMs (priv (started w)) = sessionLengthMs (priv w).
Proof.
  intros Hwf Hnr Hmax. destruct (periodOf_Z w Hmax) as [HP _].
  pose proof (wf_not_running _ Hwf Hnr) as Ht.
  unfold ticking. rewrite started_priv, started_clock, HP.
  split; [|by destruct (is_paused (priv w))].
  split; [by apply wf_started|]. split; [done|]. split; [done|].
  split; [unfold bankedAtStart; by destruct (is_paused (priv w))|].
  split; [lia|]. split; [|by rewrite app_nil_r].
  exists (next_handle w). unfold started, before_run.
  destruct (is_paused (priv w)); simpl; by rewrite Ht.
Qed.

Lemma ticking_step (t0 acc : Z) (P : nat) (pub0 : list string) (k : nat)
    (w : World) :
  (1 <= P)%nat -> 0 <= acc ->
  ticking t0 acc P pub0 k w ->
  acc + Z.of_nat (S k) * Z.of_nat P < sessionLengthMs (priv w) ->
  ticking t0 acc P pub0 (S k) (advance P w)
  /\ sessionLengthMs (priv (advance P w)) = sessionLengthMs (priv w).
Proof.
  intros HP Hacc (Hwf & Hrun & Hs & Ha & Hc & (h & Ht) & Hpub) Hopen.
  pose proof (wf_advance P w Hwf) as Hwf'.
  rewrite (advance_period P w _ Hwf Ht HP) in * by done.
  rewrite session_open in *.
  2,3: rewrite (rawElapsedMs_running _ t0) by done; rewrite Ha, Hc; nia.
  unfold ticking. simpl.
  split; [|done]. split; [exact Hwf'|]. split; [done|]. split; [done|].
  split; [done|]. split; [lia|]. split; [by eexists|].
  rewrite Hpub, <- app_assoc. f_equal. symmetry. apply replicate_cons_app.
Qed.

Lemma ticking_many (t0 acc : Z) (P : nat) (pub0 : list string) (k : nat)
    (w : World) :
  (1 <= P)%nat -> 0 <= acc ->
  ticking t0 acc P pub0 0 w ->
  (k = 0%nat \/ acc + Z.of_nat k * Z.of_nat P < sessionLengthMs (priv w)) ->
  ticking t0 acc P pub0 k (advance (k * P) w)
  /\ sessionLengthMs (priv (advance (k * P) w)) = sessionLengthMs (priv w).
Proof.
  intros HP Hacc H0. induction k as [|k IH]; intros Hopen.
  - done.
  - destruct Hopen as [Hk|Hopen]; [lia|].
    destruct IH as [IH1 IH2]; [right; nia|].
    replace (S k * P)%nat with (k * P + P)%nat by lia.
    rewrite advance_add.
    destruct (ticking_step t0 acc P pub0 k (advance (k * P) w) HP Hacc IH1)
      as [H1 H2]; [rewrite IH2; lia|].
    split; [exact H1|congruence].
Qed.



(** X19: a session runs out on a tick, for an interval of at most [2^31 - 1]
    milliseconds: if the session is still open at the
    [k]-th tick after [start()] and used up by the next one, then from that
    next tick on the timer is stopped with no registration, its elapsed time
    is the session length, and since [start()] exactly [k] [currentTime]
    events and then one [sessionStopped] have been published, however much
    more time passes. *)
Theorem session_runs_out_on_a_tick (w : World) (k extra : nat) :
  wf w -> runState (priv w) <> running ->
  intervalMs (priv w) <= TIMEOUT_MAX ->
  0 <= bankedAtStart w -> 0 <= sessionLengthMs (priv w) ->
  (k = 0%nat
   \/ bankedAtStart w + Z.of_nat k * Z.of_nat (periodOf w)
      < sessionLengthMs (priv w)) ->
  sessionLengthMs (priv w)
  <= bankedAtStart w + Z.of_nat (S k) * Z.of_nat (periodOf w) ->
  let w' := advance (S k * periodOf w + extra) (world_of (start w)) in
  runState (priv w') = stopped
  /\ timers w' = []
  /\ published w'
     = published (world_of (start w))
       ++ replicate k "currentTime"%string ++ ["sessionStopped"%string]
  /\ elapsedMs (clock w') (priv w') = sessionLengthMs (priv w).
Proof.
  intros Hwf Hnr Hmax Hacc HS0 Hopen Hdone.
  rewrite (start_eq w (proj1 Hwf)) by by apply is_counting_false.
  cbn [world_of].
  destruct (periodOf_Z w Hmax) as [_ HP].
  destruct (ticking_started w Hwf Hnr Hmax) as [H0 HS].
  set (P := periodOf w) in *.
  destruct (ticking_many (clock w) (bankedAtStart w) P _ k (started w) HP Hacc H0)
    as [(Hwf' & Hrun & Hs & Ha & Hc & (h & Ht) & Hpub) HS'];
    [rewrite HS; exact Hopen|].
  replace (S k * P + extra)%nat with (k * P + (P + extra))%nat by lia.
  rewrite advance_add.
  set (wk := advance (k * P) (started w)) in *.
  rewrite (advance_add P extra wk).
  rewrite (advance_period P wk _ Hwf' Ht HP) by done.
  assert (rawElapsedMs (clock wk + Z.of_nat P) (priv wk)
          = bankedAtStart w + Z.of_nat (S k) * Z.of_nat P) as Hraw.
  { rewrite (rawElapsedMs_running _ (clock w)) by done. rewrite Ha, Hc. lia. }
  assert (isSessionComplete (clock wk + Z.of_nat P) (priv wk) = true) as ->.
  { unfold isSessionComplete, elapsedMs, clamp. rewrite Hraw, HS', HS.
    rewrite Z.min_r by exact Hdone. rewrite Z.max_r by exact HS0.
    apply Z.leb_refl. }
  set (wc := completed (with_clock (clock wk + Z.of_nat P) wk)).
  assert (timers wc = []) as Htc by done.
  rewrite (advance_idle extra wc Htc).
  assert (priv wc = markStopped (clock wk + Z.of_nat P) (priv wk)) as Hpc by done.
  pose proof Hrun as Hcount. apply is_counting_true in Hcount.
  unfold markStopped in Hpc. rewrite Hcount, Hraw in Hpc. simpl in Hpc.
  simpl. fold wc. rewrite Hpc. simpl.
  split; [done|]. split; [done|]. split.
  - unfold wc. simpl. rewrite Hpub. by rewrite <- app_assoc.
  - unfold elapsedMs, rawElapsedMs, liveDelta, is_counting, clamp. simpl.
    rewrite HS', HS. lia.
Qed.

Lemma session_runs_out_on_a_tick_witness :
  wf slow_timer
  /\ runState (priv slow_timer) <> running
  /\ intervalMs (priv slow_timer) <= TIMEOUT_MAX
  /\ 0 <= bankedAtStart slow_timer
  /\ 0 <= sessionLengthMs (priv slow_timer)
  /\ runState (priv (advance (5 * periodOf slow_timer + 3)
                       (world_of (start slow_timer)))) = stopped
  /\ published (advance (5 * periodOf slow_timer + 3)
                  (world_of (start slow_timer)))
     = published (world_of (start slow_timer))
       ++ replicate 4 "currentTime"%string ++ ["sessionStopped"%string].
Proof.
  assert (wf slow_timer) as Hwf by by_decision.
  assert (runState (priv slow_timer) <> running) as Hnr by by_decision.
  assert (0 <= bankedAtStart slow_timer) as Hacc by (vm_compute; discriminate).
  assert (0 <= sessionLengthMs (priv slow_timer)) as HS
    by (vm_compute; discriminate).
  assert (4%nat = 0%nat
          \/ bankedAtStart slow_timer
             + Z.of_nat 4 * Z.of_nat (periodOf slow_timer)
             < sessionLengthMs (priv slow_timer)) as Hopen
    by (right; vm_compute; reflexivity).
  assert (sessionLengthMs (priv slow_timer)
          <= bankedAtStart slow_timer
             + Z.of_nat 5 * Z.of_nat (periodOf slow_timer)) as Hdone
    by (vm_compute; discriminate).
  assert (intervalMs (priv slow_timer) <= TIMEOUT_MAX) as Hmax
    by (vm_compute; discriminate).
  split; [exact Hwf|]. split; [exact Hnr|]. split; [exact Hmax|].
  split; [exact Hacc|]. split; [exact HS|].
  destruct (session_runs_out_on_a_tick slow_timer 4 3 Hwf Hnr Hmax Hacc HS
              Hopen Hdone) as (H1 & _ & H3 & _).
  split; [exact H1|exact H3].
Defined.

(** ** A timer at rest *)

(** X20: while a timer is not running, time passing fires nothing: only the
    clock moves, nothing is published, no listener is invoked, and the
    elapsed time stays what it was. *)
Theorem nothing_happens_at_rest (w : World) (n : nat) :
  wf w -> runState (priv w) <> running ->
  advance n w = with_clock (clock w + Z.of_nat n) w
  /\ elapsedMs (clock (advance n w)) (priv (advance n w))
     = elapsedMs (clock w) (priv w).
Proof.
  intros Hwf Hnr. pose proof (wf_not_running _ Hwf Hnr) as Ht.
  rewrite (advance_idle n w Ht). split; [done|]. simpl.
  unfold elapsedMs. by rewrite !rawElapsedMs_halted.
Qed.

Lemma nothing_happens_at_rest_witness :
  wf paused_timer
  /\ runState (priv paused_timer) <> running
  /\ advance 40 paused_timer
     = with_clock (clock paused_timer + Z.of_nat 40) paused_timer
  /\ elapsedMs (clock (advance 40 paused_timer))
               (priv (advance 40 paused_timer))
     = elapsedMs (clock paused_timer) (priv paused_timer).
Proof.
  assert (wf paused_timer) as Hwf by by_decision.
  assert (runState (priv paused_timer) <> running) as Hnr by by_decision.
  split; [exact Hwf|]. split; [exact Hnr|].
  exact (nothing_happens_at_rest paused_timer 40 Hwf Hnr).
Defined.

(** ** The previous revision of [changeStep] against the last *)

Lemma elapsedMs_nonneg (now : Z) (p : TimerState.t) : 0 <= elapsedMs now p.
Proof. unfold elapsedMs, clamp. lia. Qed.

Lemma world_of_bind_ret {A B : Type} (m : M A) (b : B) (w : World) :
  world_of ((let* _ := m in ret b) w) = world_of (m w).
Proof. unfold bind, ret. by destruct (m w). Qed.

(** X21: for a positive converted value and a session that is not negative,
    on a timer that is not paused, the previous revision of [changeStep]
    leaves the timer exactly as the last revision does, events included;
    only the returned value differs ([undefined] there). *)
Theorem revisions_agree_unless_paused
    (convert : Options -> Converted) (stepNotChanged : string)
    (o : Options) (w : World) (ms : Z) :
  convert o = Millis ms -> 0 < ms ->
  0 <= sessionLengthMs (priv w) ->
  runState (priv w) <> paused ->
  world_of (Revision2.changeStep convert stepNotChanged (Some o) w)
  = world_of (changeStep convert stepNotChanged (Some o) w).
Proof.
  intros Hconv Hms HS Hnp.
  unfold Revision2.changeStep, changeStep.
  destruct (has_step (opt_step o)) eqn:Hstep; [|done].
  rewrite Hconv.
  apply is_paused_false in Hnp.
  assert (normSign (opt_sign o) = 1 \/ normSign (opt_sign o) = -1) as Hsign.
  { unfold normSign. destruct (opt_sign o) as [s|]; [|by left].
    destruct (s =? 1) eqn:E1; [left; simpl; lia|].
    destruct (s =? -1) eqn:E2; [right; simpl; lia|by left]. }
  assert (normIncrement (opt_increment o) = 0
          \/ normIncrement (opt_increment o) = 1) as Hinc.
  { unfold normIncrement. destruct (opt_increment o) as [i|]; [|by left].
    destruct (i =? 0) eqn:E1; [left; simpl; lia|].
    destruct (i =? 1) eqn:E2; [right; simpl; lia|by left]. }
  apply has_step_true in Hstep. unfold steps in Hstep.
  apply elem_of_cons in Hstep as [Hs|Hstep].
  - rewrite Hs. cbv zeta.
    change (getStep "session" (priv w)) with (sessionLengthMs (priv w)).
    set (S := sessionLengthMs (priv w)) in *.
    set (sg := normSign (opt_sign o)) in *.
    set (inc := normIncrement (opt_increment o)) in *.
    set (value := ms * sg + S * inc).
    pose proof (elapsedMs_nonneg (clock w) (priv w)) as He.
    rewrite world_of_bind_ret.
    assert (world_of
              (if (0 <? sg) || (sg <? 0) && (0 <? S)
               then (let* _ := stepProcedure "session"
                                 (if value <? 0 then 0 else value)
                     in ret (JsBool true)) w
               else Returned (JsBool false) w)
            = if (0 <? sg) || (sg <? 0) && (0 <? S)
              then world_of (stepProcedure "session"
                               (if value <? 0 then 0 else value) w)
              else w) as ->.
    { destruct ((0 <? sg) || (sg <? 0) && (0 <? S)); [|done].
      apply world_of_bind_ret. }
    unfold Revision2.stepProcedure, stepProcedure, Revision2.setSession.
    cbn [String.eqb Ascii.eqb Bool.eqb andb]. rewrite Hnp. fold S.
    destruct (is_counting (priv w)) eqn:Hc; cbn [negb andb orb].
    + (* running *)
      destruct ((0 <? sg) || (sg <? 0) && (0 <? S)) eqn:Hg.
      * destruct (value <? 0) eqn:Hv.
        -- assert ((elapsedMs (clock w) (priv w) <? value) = false) as -> by lia.
           assert ((elapsedMs (clock w) (priv w) <? 0) = false) as -> by lia.
           done.
        -- destruct (elapsedMs (clock w) (priv w) <? value) eqn:Hlt; [|done].
           assert ((0 <=? value) = true) as -> by lia. done.
      * assert ((elapsedMs (clock w) (priv w) <? value) = false) as ->
          by (unfold value; nia).
        done.
    + (* not running, not paused *)
      destruct ((0 <? sg) || (sg <? 0) && (0 <? S)) eqn:Hg.
      * destruct (value <? 0) eqn:Hv.
        -- assert ((0 <=? value) = false) as -> by lia.
           assert ((0 <? S) = true) as -> by (unfold value in Hv; nia).
           done.
        -- assert ((0 <=? value) = true) as -> by lia. done.
      * assert ((0 <=? value) = false) as -> by (unfold value; nia).
        assert ((value <? 0) = true) as -> by (unfold value; nia).
        assert ((0 <? S) = false) as -> by lia.
        done.
  - apply list_elem_of_singleton in Hstep. rewrite Hstep. cbv zeta.
    change (getStep "interval" (priv w)) with (intervalMs (priv w)).
    rewrite world_of_bind_ret.
    destruct ((0 <? _) || _); [|done].
    by rewrite world_of_bind_ret.
Qed.

Lemma revisions_agree_unless_paused_witness :
  convert_ms decrement_session = Millis 5 /\ 0 < 5
  /\ 0 <= sessionLengthMs (priv running_timer)
  /\ runState (priv running_timer) <> paused
  /\ world_of (Revision2.changeStep convert_ms "stepNotChanged"
                 (Some decrement_session) running_timer)
     = world_of (changeStep convert_ms "stepNotChanged"
                   (Some decrement_session) running_timer).
Proof.
  assert (convert_ms decrement_session = Millis 5) as Hc by reflexivity.
  assert (0 < 5) as Hms by lia.
  assert (0 <= sessionLengthMs (priv running_timer)) as HS
    by (vm_compute; discriminate).
  assert (runState (priv running_timer) <> paused) as Hnp by by_decision.
  split; [exact Hc|]. split; [exact Hms|]. split; [exact HS|].
  split; [exact Hnp|].
  exact (revisions_agree_unless_paused convert_ms "stepNotChanged"
           decrement_session running_timer 5 Hc Hms HS Hnp).
Defined.

(** X22: the previous revision does not guard a paused timer: there a session
    change to any value that is not negative is committed, also at or below
    the elapsed time, which completes the session on the spot. *)
Theorem revision2_shrinks_a_paused_session
    (convert : Options -> Converted) (stepNotChanged : string)
    (o : Options) (w : World) (ms : Z) :
  has_events w ->
  opt_step o = "session"%string ->
  runState (priv w) = paused ->
  convert o = Millis ms ->
  let value := ms * normSign (opt_sign o)
               + sessionLengthMs (priv w) * normIncrement (opt_increment o) in
  0 <= value <= elapsedMs (clock w) (priv w) ->
  let w' := world_of (Revision2.changeStep convert stepNotChanged (Some o) w) in
  Revision2.changeStep convert stepNotChanged (Some o) w
  = Returned JsUndefined w'
  /\ sessionLengthMs (priv w') = value
  /\ isSessionComplete (clock w') (priv w') = true.
Proof.
  intros He Hs Hp Hconv value Hv.
  assert (is_counting (priv w) = false) as Hc
    by (apply is_counting_false; congruence).
  assert (Revision2.changeStep convert stepNotChanged (Some o) w
          = Returned JsUndefined
              (deliver "currentTime"
                 (deliver "sessionChanged"
                    (with_priv (with_session value (priv w)) w)))) as E.
  { unfold Revision2.changeStep. rewrite Hs. simpl. rewrite Hconv.
    change (getStep "session" (priv w)) with (sessionLengthMs (priv w)).
    fold value. unfold bind at 1, Revision2.stepProcedure. simpl.
    rewrite Hc. simpl.
    assert ((0 <=? value) = true) as -> by lia.
    unfold Revision2.setSession, setStep. simpl.
    assert ((0 <=? value) = true) as -> by lia.
    run_monad. rewrite publish_ok by (simpl; event_key He).
    rewrite publish_ok by (simpl; event_key He). done. }
  cbv zeta. rewrite E. cbn [world_of]. split; [done|]. split; [done|].
  simpl. unfold isSessionComplete, elapsedMs, clamp in *.
  assert (forall now p v, runState p = paused ->
            rawElapsedMs now (with_session v p) = rawElapsedMs now p) as Hraw.
  { intros now p v Hpp. unfold rawElapsedMs, liveDelta, is_counting. simpl.
    done. }
  rewrite Hraw by done. simpl. lia.
Qed.

Lemma revision2_shrinks_a_paused_session_witness :
  has_events paused_timer
  /\ opt_step halve_session = "session"%string
  /\ runState (priv paused_timer) = paused
  /\ convert_ms halve_session = Millis 1
  /\ 0 <= 1 * normSign (opt_sign halve_session)
          + sessionLengthMs (priv paused_timer)
            * normIncrement (opt_increment halve_session)
       <= elapsedMs (clock paused_timer) (priv paused_timer)
  /\ isSessionComplete
       (clock (world_of (Revision2.changeStep convert_ms "stepNotChanged"
                           (Some halve_session) paused_timer)))
       (priv (world_of (Revision2.changeStep convert_ms "stepNotChanged"
                          (Some halve_session) paused_timer))) = true.
Proof.
  assert (has_events paused_timer) as He by by_decision.
  assert (opt_step halve_session = "session"%string) as Hs by reflexivity.
  assert (runState (priv paused_timer) = paused) as Hp by reflexivity.
  assert (convert_ms halve_session = Millis 1) as Hc by reflexivity.
  assert (0 <= 1 * normSign (opt_sign halve_session)
               + sessionLengthMs (priv paused_timer)
                 * normIncrement (opt_increment halve_session)
            <= elapsedMs (clock paused_timer) (priv paused_timer)) as Hv
    by (vm_compute; split; discriminate).
  split; [exact He|]. split; [exact Hs|]. split; [exact Hp|].
  split; [exact Hc|]. split; [exact Hv|].
  exact (proj2 (proj2 (revision2_shrinks_a_paused_session convert_ms
                         "stepNotChanged" halve_session paused_timer 1
                         He Hs Hp Hc Hv))).
Defined.


(** ** Listeners on a tick, and the elapsed time across a halt *)

(** X23: a tick of a running timer calls listeners once each, in
    registration order and without the removed ones: those of [currentTime]
    while the session is open, those of [sessionStopped] on the tick that
    finds it complete. *)
Theorem tick_calls_listeners_once (w : World) (r : Registration) :
  wf w -> timers w = [r] ->
  calls (fire (rid r) w)
  = calls w
    ++ present (default []
                  (listeners w !! (if isSessionComplete (clock w) (priv w)
                                   then "sessionStopped"
                                   else "currentTime")%string)).
Proof.
  intros Hwf Ht.
  destruct (wf_timers_running _ _ Hwf Ht) as (Hrun & Hcd & Hr & Hnull).
  rewrite fire_eq; try done; [|apply Hwf].
  by destruct (isSessionComplete (clock w) (priv w)).
Qed.

Lemma tick_calls_listeners_once_witness :
  (wf listening_timer
   /\ timers listening_timer = [mkReg 1 110 10 false]
   /\ isSessionComplete (clock listening_timer) (priv listening_timer) = false
   /\ calls (fire 1 listening_timer)
      = calls listening_timer ++ [mkEntry "listenerB" "onTick"])
  /\ (wf closing_listening_timer
      /\ timers closing_listening_timer = [mkReg 1 110 10 false]
      /\ isSessionComplete (clock closing_listening_timer)
                           (priv closing_listening_timer) = true
      /\ calls (fire 1 closing_listening_timer)
         = calls closing_listening_timer ++ [mkEntry "listenerC" "onStop"]).
Proof.
  split.
  - assert (wf listening_timer) as Hwf by by_decision.
    assert (timers listening_timer = [mkReg 1 110 10 false]) as Ht
      by reflexivity.
    split; [exact Hwf|]. split; [exact Ht|]. split; [reflexivity|].
    exact (tick_calls_listeners_once listening_timer
             (mkReg 1 110 10 false) Hwf Ht).
  - assert (wf closing_listening_timer) as Hwf by by_decision.
    assert (timers closing_listening_timer = [mkReg 1 110 10 false]) as Ht
      by reflexivity.
    split; [exact Hwf|]. split; [exact Ht|]. split; [reflexivity|].
    exact (tick_calls_listeners_once closing_listening_timer
             (mkReg 1 110 10 false) Hwf Ht).
Defined.

(** X24: halting and resuming do not move the elapsed time: read at the same
    instant it is the same before and after [pause()], before and after
    [stop()], and before and after the [start()] that resumes a paused
    timer. *)
Theorem elapsed_is_kept_across_halts (w : World) :
  wf w ->
  elapsedMs (clock w) (priv (world_of (pause w))) = elapsedMs (clock w) (priv w)
  /\ elapsedMs (clock w) (priv (world_of (stop w))) = elapsedMs (clock w) (priv w)
  /\ (runState (priv w) = paused ->
      elapsedMs (clock w) (priv (world_of (start w)))
      = elapsedMs (clock w) (priv w)).
Proof.
  intros Hwf. split; [|split].
  - destruct (is_counting (priv w)) eqn:Hc.
    + rewrite pause_eq by (done || apply Hwf). cbn [world_of].
      destruct (paused_fields w) as (-> & _).
      unfold markPaused. rewrite Hc.
      set (p' := with_runState paused _).
      unfold elapsedMs.
      rewrite (rawElapsedMs_halted (clock w) p') by (simpl; discriminate).
      done.
    + by rewrite pause_noop.
  - destruct (is_counting (priv w) || is_paused (priv w)) eqn:Hc.
    + rewrite stop_eq by (done || apply Hwf). cbn [world_of].
      destruct (stopped_fields w) as (-> & _).
      unfold markStopped. rewrite Hc.
      set (p' := with_runState stopped _).
      unfold elapsedMs, clamp.
      rewrite (rawElapsedMs_halted (clock w) p') by (simpl; discriminate).
      simpl. lia.
    + by rewrite stop_noop.
  - intros Hp.
    rewrite start_eq by (apply Hwf || (apply is_counting_false; congruence)).
    cbn [world_of]. rewrite started_priv.
    pose proof Hp as Hp'. apply is_paused_true in Hp'. rewrite Hp'.
    set (p' := markRunning (clock w) (priv w)).
    unfold elapsedMs.
    rewrite (rawElapsedMs_running (clock w) (clock w) p') by done.
    rewrite (rawElapsedMs_halted (clock w) (priv w)) by congruence. simpl.
    by rewrite Z.sub_diag, Z.add_0_r.
Qed.

Lemma elapsed_is_kept_across_halts_witness :
  wf running_timer
  /\ elapsedMs (clock running_timer) (priv (world_of (pause running_timer)))
     = elapsedMs (clock running_timer) (priv running_timer)
  /\ elapsedMs (clock running_timer) (priv (world_of (stop running_timer)))
     = elapsedMs (clock running_timer) (priv running_timer).
Proof.
  assert (wf running_timer) as Hwf by by_decision.
  destruct (elapsed_is_kept_across_halts running_timer Hwf) as (H1 & H2 & _).
  split; [exact Hwf|]. split; [exact H1|exact H2].
Defined.
